(** * datalayer.js: the Datalayer orchestrator

    A shallow embedding of [src/datalayer.js] (class [Datalayer]) and the
    properties of its initialisation, rule evaluation, plugin admission and
    event broadcast.

    JavaScript mutates the datalayer object in place and may leave a method
    through [throw] with the mutations already made.  Methods are therefore
    computations [World -> Outcome A * World]: the world after the call is
    returned on normal completion and on a throw alike. *)

From Stdlib Require Import String Ascii ZArith List Bool Arith Lia.
Import ListNotations.
Local Open Scope string_scope.
Local Open Scope list_scope.
Set Warnings "-register-all".

(** ** JavaScript values *)

(** JSON-like data plus references to functions and to plugin classes.
    Functions and classes are named by a number; what they do when called
    is given by the environment [Env] below.  Numbers are integers (no
    floating point, no NaN).  Objects are plain records held as association
    lists in insertion order, the first entry of a key being its value;
    they have no accessors, and a function stored in a field is called
    with its argument only.  Arrays are the only values with a
    [forEach]. *)
Inductive Value : Type :=
| VUndef
| VNull
| VBool (b : bool)
| VNum (n : Z)
| VStr (s : string)
| VArr (items : list Value)
| VObj (fields : list (string * Value))
| VFun (f : nat)
| VClass (c : nat).

(** What a [throw] carries: a [TypeError] raised by the engine (property
    read on [undefined]/[null], call of a non-function, [new] on a
    non-constructor), an [Error] built with [new Error(msg)], or whatever
    user code (a rule, a constructor, a handler) throws. *)
Inductive Error : Type :=
| TypeError
| Err (msg : string)
| UserError (tag : nat).

Inductive Outcome (A : Type) : Type :=
| Ok (a : A)
| Throw (e : Error).
Arguments Ok {A} a.
Arguments Throw {A} e.

(** ToBoolean. *)
Definition truthy (v : Value) : bool :=
  match v with
  | VUndef | VNull => false
  | VBool b => b
  | VNum n => negb (Z.eqb n 0)
  | VStr s => negb (String.eqb s "")
  | VArr _ | VObj _ | VFun _ | VClass _ => true
  end.

(** [a || b] *)
Definition or_else (a b : Value) : Value := if truthy a then a else b.

Fixpoint assoc (k : string) (fs : list (string * Value)) : Value :=
  match fs with
  | [] => VUndef
  | (k', v) :: rest => if String.eqb k k' then v else assoc k rest
  end.

(** A plugin instance: the class it was built from, the config its
    constructor received, and its identity (the number of objects created
    before it). *)
Record Plugin : Type := mkPlugin {
  p_class : nat;
  p_config : Value;
  p_oid : nat
}.

(** ** The environment: user code and external collaborators

    Rules, plugin constructors and handlers are code of the page.  They
    are taken to leave the datalayer alone: a rule is a pure function of
    its argument, and a constructor or a handler either returns or throws
    but does not call a method of the datalayer it was given. *)

Record Env : Type := mkEnv {
  (** [f(arg)] for the function named [f]: rules are pure predicates. *)
  call : nat -> Value -> Outcome Value;
  (** the [length] property of function [f] and of class [c] *)
  fn_length : nat -> Z;
  class_length : nat -> Z;
  (** the static [getID()] of class [c] *)
  getID : nat -> string;
  (** [new c(datalayer, globalData, config)]: the error it throws, if any *)
  construct_fails : nat -> Value -> Value -> option Error;
  (** [typeof plugin.handleEvent === 'function'] *)
  has_handleEvent : Plugin -> bool;
  (** [plugin.handleEvent(name, data, ts)]: the error it throws, if any *)
  handleEvent_fails : Plugin -> Value -> Value -> Z -> option Error;
  (** [utils.collectMetadata('dal:data', cb, document, target)]: the fields
      of [target] after the document's metadata has been merged in *)
  collectMetadata : list (string * Value) -> list (string * Value);
  (** [(new Date()).getTime()]: the k-th reading of the wall clock *)
  getTime : nat -> Z
}.

(** ** The datalayer object and its world *)

Inductive PromiseState : Type := Pending | Resolved | Rejected.

(** The fields of a [Datalayer] instance.  [broadcastHistory] is read by
    [addPlugin] but is assigned nowhere, the constructor included: it holds
    [undefined] unless someone outside the class sets it. *)
Record Datalayer : Type := mkDatalayer {
  initialized : bool;
  metaPrefix : string;
  globalData : Value;
  globalConfig : Value;
  testModeActive : bool;
  plugins : list Plugin;
  broadcastQueue : list (Value * Value);
  broadcastHistory : Value;
  readyPromise : PromiseState
}.

(** One call of a plugin's [handleEvent]. *)
Record Delivery : Type := mkDelivery {
  d_plugin : Plugin;
  d_name : Value;
  d_data : Value;
  d_ts : Z
}.

(** The datalayer together with what its methods can observe or change
    around it: the number of objects created, the number of clock readings
    taken, the lines written by [console.warn], and every [handleEvent]
    call made so far, oldest first. *)
Record World : Type := mkWorld {
  dal : Datalayer;
  allocated : nat;
  clock_reads : nat;
  console : list string;
  handled : list Delivery
}.

Definition set_dal (f : Datalayer -> Datalayer) (w : World) : World :=
  mkWorld (f (dal w)) (allocated w) (clock_reads w) (console w) (handled w).

Definition set_initialized (b : bool) (d : Datalayer) : Datalayer :=
  mkDatalayer b (metaPrefix d) (globalData d) (globalConfig d)
    (testModeActive d) (plugins d) (broadcastQueue d) (broadcastHistory d)
    (readyPromise d).

Definition set_globalData (v : Value) (d : Datalayer) : Datalayer :=
  mkDatalayer (initialized d) (metaPrefix d) v (globalConfig d)
    (testModeActive d) (plugins d) (broadcastQueue d) (broadcastHistory d)
    (readyPromise d).

Definition set_globalConfig (v : Value) (d : Datalayer) : Datalayer :=
  mkDatalayer (initialized d) (metaPrefix d) (globalData d) v
    (testModeActive d) (plugins d) (broadcastQueue d) (broadcastHistory d)
    (readyPromise d).

Definition push_plugin (p : Plugin) (d : Datalayer) : Datalayer :=
  mkDatalayer (initialized d) (metaPrefix d) (globalData d) (globalConfig d)
    (testModeActive d) (plugins d ++ [p]) (broadcastQueue d)
    (broadcastHistory d) (readyPromise d).

Definition push_event (e : Value * Value) (d : Datalayer) : Datalayer :=
  mkDatalayer (initialized d) (metaPrefix d) (globalData d) (globalConfig d)
    (testModeActive d) (plugins d) (broadcastQueue d ++ [e])
    (broadcastHistory d) (readyPromise d).

(** Resolving a promise that is already settled does nothing. *)
Definition resolve (d : Datalayer) : Datalayer :=
  mkDatalayer (initialized d) (metaPrefix d) (globalData d) (globalConfig d)
    (testModeActive d) (plugins d) (broadcastQueue d) (broadcastHistory d)
    (match readyPromise d with Pending => Resolved | s => s end).

(** ** The method monad *)

Definition M (A : Type) : Type := World -> Outcome A * World.

Definition ret {A} (a : A) : M A := fun w => (Ok a, w).
Definition throw {A} (e : Error) : M A := fun w => (Throw e, w).
Definition bind {A B} (m : M A) (k : A -> M B) : M B :=
  fun w =>
    match m w with
    | (Ok a, w') => k a w'
    | (Throw e, w') => (Throw e, w')
    end.
Definition lift {A} (o : Outcome A) : M A := fun w => (o, w).
Definition this : M Datalayer := fun w => (Ok (dal w), w).
Definition update (f : Datalayer -> Datalayer) : M unit :=
  fun w => (Ok tt, set_dal f w).

Declare Scope js_scope.
Delimit Scope js_scope with js.
Notation "x <- m ;; k" := (bind m (fun x => k))
  (at level 61, m at next level, right associativity) : js_scope.
Notation "m ;; k" := (bind m (fun _ => k))
  (at level 61, right associativity) : js_scope.
Local Open Scope js_scope.

(** [array.forEach(f)] over the elements present when the loop starts. *)
Fixpoint forEach {A} (f : A -> M unit) (l : list A) : M unit :=
  match l with
  | [] => ret tt
  | x :: rest => f x ;; forEach f rest
  end.

Definition console_warn (msg : string) : M unit :=
  fun w => (Ok tt, mkWorld (dal w) (allocated w) (clock_reads w)
                     (console w ++ [msg]) (handled w)).

Definition record_call (d : Delivery) : M unit :=
  fun w => (Ok tt, mkWorld (dal w) (allocated w) (clock_reads w)
                     (console w) (handled w ++ [d])).

Definition new_oid : M nat :=
  fun w => (Ok (allocated w),
            mkWorld (dal w) (S (allocated w)) (clock_reads w)
              (console w) (handled w)).

(** ** Construction *)

(** What [Datalayer.isTestModeActive] consults: the value of the
    [__odltest__] cookie, if set, and [window.location.search]. *)
Record Browser : Type := mkBrowser {
  cookie_odltest : option string;
  location_search : string
}.

Definition lower_ascii (c : ascii) : ascii :=
  let n := nat_of_ascii c in
  if (65 <=? n)%nat && (n <=? 90)%nat then ascii_of_nat (n + 32) else c.

Fixpoint lower (s : string) : string :=
  match s with
  | EmptyString => EmptyString
  | String c rest => String (lower_ascii c) (lower rest)
  end.

(** [s.match(/pat/gi)] is truthy, for a pattern of plain characters. *)
Definition matches_ci (pat s : string) : bool :=
  match String.index 0 (lower pat) (lower s) with
  | Some _ => true
  | None => false
  end.

(** [Datalayer.isTestModeActive()]: the flag, and the cookie afterwards. *)
Definition isTestModeActive (b : Browser) : bool * Browser :=
  match cookie_odltest b with
  | Some (String _ _) =>
      if matches_ci "__odltest__=0" (location_search b)
      then (false, mkBrowser None (location_search b))
      else (true, b)
  | _ =>
      if matches_ci "__odltest__=1" (location_search b)
      then (true, mkBrowser (Some "1") (location_search b))
      else (false, b)
  end.

(** [new Datalayer()] *)
Definition constructor (b : Browser) : Datalayer :=
  mkDatalayer false "dal:" (VObj []) (VObj []) (fst (isTestModeActive b))
    [] [] VUndef Pending.

Definition new_world (b : Browser) : World :=
  mkWorld (constructor b) 0 0 [] [].

Section Datalayer.

Variable env : Env.

(** [(new Date()).getTime()] *)
Definition now : M Z :=
  fun w => (Ok (getTime env (clock_reads w)),
            mkWorld (dal w) (allocated w) (S (clock_reads w))
              (console w) (handled w)).

(** [v.k] for a value that is neither [undefined] nor [null] and a key
    that is a name.  Of the properties the engine itself provides only
    [length] is modelled; elements are read with [index]. *)
Definition get (v : Value) (k : string) : Value :=
  match v with
  | VObj fs => assoc k fs
  | VArr items =>
      if String.eqb k "length" then VNum (Z.of_nat (List.length items))
      else VUndef
  | VStr s =>
      if String.eqb k "length" then VNum (Z.of_nat (String.length s))
      else VUndef
  | VFun f => if String.eqb k "length" then VNum (fn_length env f) else VUndef
  | VClass c =>
      if String.eqb k "length" then VNum (class_length env c) else VUndef
  | _ => VUndef
  end.

(** [v.k]: a [TypeError] on [undefined] and [null]. *)
Definition prop (v : Value) (k : string) : M Value :=
  match v with
  | VUndef | VNull => throw TypeError
  | _ => ret (get v k)
  end.

(** [v[i]] *)
Definition index (v : Value) (i : nat) : M Value :=
  match v with
  | VUndef | VNull => throw TypeError
  | VArr items => ret (nth i items VUndef)
  | VStr s =>
      ret (match String.get i s with
           | Some ch => VStr (String ch EmptyString)
           | None => VUndef
           end)
  | _ => ret VUndef
  end.

(** [f(arg)]: a [TypeError] unless [f] is a function; a class cannot be
    called without [new]. *)
Definition invoke (f : Value) (arg : Value) : M Value :=
  match f with
  | VFun n => lift (call env n arg)
  | _ => throw TypeError
  end.

(** *** [validateRule(rule)] *)
Definition validateRule (rule : Value) : M Value :=
  d <- this ;;
  match rule with
  | VBool _ => ret rule
  | VFun _ | VClass _ => invoke rule (globalData d)
  | _ =>
      test <- prop rule "test" ;;
      if negb (truthy test)
         || (match test with VBool true => true | _ => false end
             && testModeActive d)
      then r <- prop rule "rule" ;; invoke r (globalData d)
      else ret (VBool false)
  end.

(** *** [Datalayer.sendEventToPlugin(plugin, eventName, eventData)]

    The third argument of [handleEvent] is a clock reading taken for this
    very call. *)
Definition sendEventToPlugin (plugin : option Plugin) (eventName eventData : Value)
  : M unit :=
  match plugin with
  | Some p =>
      if has_handleEvent env p then
        ts <- now ;;
        record_call (mkDelivery p eventName eventData ts) ;;
        match handleEvent_fails env p eventName eventData ts with
        | Some e => throw e
        | None => ret tt
        end
      else ret tt
  | None => ret tt
  end.

(** *** [broadcast(name, data)] *)
Definition broadcast (name data : Value) : M unit :=
  d <- this ;;
  forEach (fun plugin => sendEventToPlugin (Some plugin) name data) (plugins d) ;;
  update (push_event (name, data)).

(** *** [scanForDataMarkup(window.document)]

    The collaborator merges into the object it is given, which is the
    object [globalData] refers to; a value that is not a plain object is
    left as it is. *)
Definition scanForDataMarkup : M unit :=
  update (fun d =>
    match globalData d with
    | VObj fs => set_globalData (VObj (collectMetadata env fs)) d
    | _ => d
    end).

(** *** [addPlugin(pluginClass, config = {})] *)
Definition addPlugin (pluginClass config : Value) : M unit :=
  let config := match config with VUndef => VObj [] | _ => config end in
  match pluginClass with
  | VClass c =>
      let pluginId := getID env c in
      d <- this ;;
      cfg0 <- prop (globalConfig d) pluginId ;;
      let cfg := or_else cfg0 config in
      match construct_fails env c (globalData d) cfg with
      | Some e => throw e
      | None =>
          oid <- new_oid ;;
          let plugin := mkPlugin c cfg oid in
          update (push_plugin plugin) ;;
          (* for (let i = 0; i < this.broadcastQueue.length; i += 1):
             nothing in the body changes the length *)
          forEach (fun i =>
            d <- this ;;
            event <- index (broadcastHistory d) i ;;
            name <- index event 0 ;;
            data <- index event 1 ;;
            sendEventToPlugin (Some plugin) name data)
            (seq 0 (List.length (broadcastQueue d)))
      end
  | _ =>
      (* [pluginClass.getID()], then [new] on something that is no class *)
      getter <- prop pluginClass "getID" ;;
      invoke getter VUndef ;;
      throw TypeError
  end.

(** *** [initialize(options)]

    [data] and [this.globalData] name one object, so the validation reads
    the data as the markup scan left it.  In [!a || !a.b || !a.c] a later
    operand is read only when the earlier ones are false; [pageType],
    [pageName] and [siteId] stand for [undefined] when they are not read.
    The statements after the bare [return] (source lines 205 to 222) are
    never reached and have no counterpart here. *)
Definition initialize (options : Value) : M Value :=
  d <- this ;;
  if initialized d then
    console_warn "already initialized" ;;
    ret (VBool false)
  else
    data0 <- prop options "data" ;;
    plugins0 <- prop options "plugins" ;;
    let pluginList := or_else plugins0 (VArr []) in
    config0 <- prop options "config" ;;
    update (set_globalConfig (or_else config0 (VObj []))) ;;
    update (set_globalData (or_else data0 (VObj []))) ;;
    scanForDataMarkup ;;
    d <- this ;;
    let data := globalData d in
    page <- prop data "page" ;;
    pageType <- (if truthy page then prop page "type" else ret VUndef) ;;
    pageName <- (if truthy page && truthy pageType then prop page "name"
                 else ret VUndef) ;;
    if negb (truthy page) || negb (truthy pageType) || negb (truthy pageName)
    then throw (Err "Supplied DALPageData is invalid or missing")
    else
      site <- prop data "site" ;;
      siteId <- (if truthy site then prop site "id" else ret VUndef) ;;
      if negb (truthy site) || negb (truthy siteId)
      then throw (Err "Supplied DALSiteData is invalid or missing")
      else
        user <- prop data "user" ;;
        if negb (truthy user)
        then throw (Err "Supplied DALUserData is invalid or missing")
        else
          len <- prop pluginList "length" ;;
          (if truthy len then
             match pluginList with
             | VArr items =>
                 forEach (fun pluginOptions =>
                   rule <- prop pluginOptions "rule" ;;
                   accepted <- validateRule rule ;;
                   if truthy accepted then
                     type <- prop pluginOptions "type" ;;
                     config <- prop pluginOptions "config" ;;
                     addPlugin type config
                   else ret tt) items
             | _ => throw TypeError (* no [forEach] to call *)
             end
           else ret tt) ;;
          update (set_initialized true) ;;
          d <- this ;;
          broadcast (VStr "initialize") (globalData d) ;;
          update resolve ;;
          ret VUndef.

(** *** Accessors *)
Definition whenReady : M PromiseState := d <- this ;; ret (readyPromise d).
Definition inTestMode : M bool := d <- this ;; ret (testModeActive d).
Definition isReady : M bool := d <- this ;; ret (initialized d).

Definition getData : M Value :=
  d <- this ;;
  if initialized d then ret (globalData d)
  else throw (Err ".getData called before .initialize (always wrap in whenReady())").

(** *** [getPluginById(pluginId)]

    [this.plugins[i].constructor.getID() === pluginId] holds when
    [pluginId] is the very string the class of the plugin returns; [None]
    stands for [null]. *)
Definition getPluginById (pluginId : Value) : M (option Plugin) :=
  d <- this ;;
  if initialized d then
    ret ((fix scan (ps : list Plugin) : option Plugin :=
            match ps with
            | [] => None
            | p :: rest =>
                match pluginId with
                | VStr s =>
                    if String.eqb (getID env (p_class p)) s then Some p
                    else scan rest
                | _ => scan rest
                end
            end) (plugins d))
  else throw (Err ".getPluginById called before .initialize (always wrap in whenReady())").

(** *** The callback of [scanForEventMarkup(node)]

    [utils.collectMetadata] calls it with an error, or with an element of
    the document and the object parsed from it.  Around the datalayer's
    world the page has the elements that carry the attribute
    [data-odl-handled-event] and the values given to [console.error]. *)
Record Page : Type := mkPage {
  world : World;
  handled_elements : list nat;
  console_errors : list Value
}.

Definition eventMarkupCallback (err : Value) (element : nat) (obj : Value)
  (pg : Page) : Outcome unit * Page :=
  if truthy err then
    (Ok tt, mkPage (world pg) (handled_elements pg) (console_errors pg ++ [err]))
  else if existsb (Nat.eqb element) (handled_elements pg) then (Ok tt, pg)
  else
    let marked := handled_elements pg ++ [element] in
    let r := (name <- prop obj "name" ;;
              data <- prop obj "data" ;;
              broadcast name data) (world pg) in
    (fst r, mkPage (snd r) marked (console_errors pg)).

End Datalayer.

(** ** A test environment *)

Module Fixture.

(** Function 0 is [() => true], function 1 is [() => false]; every other
    function throws.  Class 0 is the test suite's [MockPlugin]; class 1
    has no [handleEvent]; the handler of class 2 throws on every event.
    The document carries no metadata and the clock advances by one
    millisecond per reading. *)
Definition env : Env :=
  mkEnv
    (fun f _ => match f with
                | 0 => Ok (VBool true)
                | 1 => Ok (VBool false)
                | _ => Throw (UserError 0)
                end)
    (fun _ => 0%Z)
    (fun _ => 3%Z)
    (fun c => match c with
              | 0 => "test/mockPlugin"
              | 1 => "test/bare"
              | _ => "test/failing"
              end)
    (fun _ _ _ => None)
    (fun p => match p_class p with 1 => false | _ => true end)
    (fun p _ _ _ => match p_class p with 2 => Some (UserError 1) | _ => None end)
    (fun fs => fs)
    (fun k => (1000 + Z.of_nat k)%Z).

Definition browser : Browser := mkBrowser None "".

Definition w0 : World := new_world browser.

(** A fresh datalayer on a page opened with [?__odltest__=1]. *)
Definition w_test : World :=
  new_world (mkBrowser None "?__ODLTEST__=1").

Definition globalDataMock : Value :=
  VObj [("site", VObj [("id", VStr "mysite")]);
        ("page", VObj [("name", VStr "foo"); ("type", VStr "bar")]);
        ("user", VObj [])].

Definition MockPlugin : Value := VClass 0.
Definition BarePlugin : Value := VClass 1.
Definition FailingPlugin : Value := VClass 2.

Definition mock (oid : nat) : Plugin := mkPlugin 0 (VObj []) oid.
Definition bare (oid : nat) : Plugin := mkPlugin 1 (VObj []) oid.
Definition failing (oid : nat) : Plugin := mkPlugin 2 (VObj []) oid.

(** The world after [addPlugin] has admitted each class of [classes] in
    turn, starting from a fresh datalayer. *)
Definition admitted (classes : list Value) : World :=
  snd (forEach (fun c => addPlugin env c VUndef) classes w0).

(** Three candidates: [MockPlugin] under the rule [true], the class
    without [handleEvent] under [() => true], and [MockPlugin] again under
    a rule for test mode only. *)
Definition options_three : Value :=
  VObj [("data", globalDataMock);
        ("plugins",
         VArr [VObj [("type", MockPlugin); ("rule", VBool true)];
               VObj [("type", BarePlugin); ("rule", VFun 0)];
               VObj [("type", MockPlugin);
                     ("rule", VObj [("rule", VFun 0); ("test", VBool true)])]])].

(** The world after [initialize(options_three)] on a fresh datalayer. *)
Definition ready : World := snd (initialize env options_three w0).

Definition event_x : Value := VStr "x".
Definition payload_a1 : Value := VObj [("a", VNum 1)].

End Fixture.

(** A second environment: as [Fixture.env], but the constructor of class
    3 throws and function 2 returns the number 7. *)
Module Scenario.

Definition env : Env :=
  mkEnv
    (fun f arg => match f with
                  | 2 => Ok (VNum 7)
                  | _ => call Fixture.env f arg
                  end)
    (fn_length Fixture.env)
    (class_length Fixture.env)
    (getID Fixture.env)
    (fun c _ _ => match c with 3 => Some (UserError 2) | _ => None end)
    (has_handleEvent Fixture.env)
    (handleEvent_fails Fixture.env)
    (collectMetadata Fixture.env)
    (getTime Fixture.env).

Definition BrokenPlugin : Value := VClass 3.

End Scenario.

(** ** What the properties are stated with *)

Section Specification.

Variable env : Env.

(** The [handleEvent] calls one broadcast of [(name, data)] makes when no
    handler throws: one per plugin that has a [handleEvent], in list order,
    each stamped with the next clock reading, [k] being the number of
    readings taken before. *)
Fixpoint deliveries (ps : list Plugin) (name data : Value) (k : nat)
  : list Delivery :=
  match ps with
  | [] => []
  | p :: rest =>
      if has_handleEvent env p
      then mkDelivery p name data (getTime env k) :: deliveries rest name data (S k)
      else deliveries rest name data k
  end.

(** The data [initialize] validates: [options.data || {}] after the markup
    scan. *)
Definition scanned (v : Value) : Value :=
  match v with
  | VObj fs => VObj (collectMetadata env fs)
  | _ => v
  end.

Definition supplied_data (options : Value) : Value :=
  scanned (or_else (get env options "data") (VObj [])).

Definition supplied_config (options : Value) : Value :=
  or_else (get env options "config") (VObj []).

(** [data.page.type] and [data.page.name] are both non-empty, that is,
    [data.page], [data.page.type] and [data.page.name] are truthy. *)
Definition page_ok (data : Value) : bool :=
  truthy (get env data "page")
  && truthy (get env (get env data "page") "type")
  && truthy (get env (get env data "page") "name").

(** [data.site.id] is non-empty: [data.site] and [data.site.id] are
    truthy. *)
Definition site_ok (data : Value) : bool :=
  truthy (get env data "site") && truthy (get env (get env data "site") "id").

(** [data.user] is present: it is truthy. *)
Definition user_ok (data : Value) : bool := truthy (get env data "user").

Definition is_object (v : Value) : Prop := v <> VUndef /\ v <> VNull.

(** The world [initialize] has made by the time it validates: config and
    data are stored, nothing else has changed. *)
Definition prepared (options : Value) (w : World) : World :=
  set_dal (fun d => set_globalData (supplied_data options)
                      (set_globalConfig (supplied_config options) d)) w.

(** [initialize] from the plugin loop on (source lines 187 to 203), for
    stating where a call stands once validation has passed. *)
Definition after_validation (pluginList : Value) : M Value :=
  len <- prop env pluginList "length" ;;
  (if truthy len then
     match pluginList with
     | VArr items =>
         forEach (fun pluginOptions =>
           rule <- prop env pluginOptions "rule" ;;
           accepted <- validateRule env rule ;;
           if truthy accepted then
             type <- prop env pluginOptions "type" ;;
             config <- prop env pluginOptions "config" ;;
             addPlugin env type config
           else ret tt) items
     | _ => throw TypeError
     end
   else ret tt) ;;
  update (set_initialized true) ;;
  d <- this ;;
  broadcast env (VStr "initialize") (globalData d) ;;
  update resolve ;;
  ret VUndef.

(** The config the constructor of class [c] receives from [addPlugin]. *)
Definition effective_config (c : nat) (config : Value) (d : Datalayer) : Value :=
  or_else (get env (globalConfig d) (getID env c))
    (match config with VUndef => VObj [] | _ => config end).

(** The instance [addPlugin] builds in world [w]. *)
Definition admitted_plugin (c : nat) (config : Value) (w : World) : Plugin :=
  mkPlugin c (effective_config c config (dal w)) (allocated w).

End Specification.

Definition page_error : Error := Err "Supplied DALPageData is invalid or missing".
Definition site_error : Error := Err "Supplied DALSiteData is invalid or missing".
Definition user_error : Error := Err "Supplied DALUserData is invalid or missing".

(** The load rule of the specification: a literal boolean, a predicate over
    the global data, or a record of a predicate and an optional [test]
    flag. *)
Inductive LoadRule : Type :=
| RBool (b : bool)
| RPred (f : nat)
| RStruct (f : nat) (test : option bool).

(** [evaluate(rule, data, testModeActive)] as the specification words it. *)
Definition evaluate (env : Env) (rule : LoadRule) (data : Value)
  (testMode : bool) : Outcome Value :=
  match rule with
  | RBool b => Ok (VBool b)
  | RPred f => call env f data
  | RStruct f None | RStruct f (Some false) => call env f data
  | RStruct f (Some true) =>
      if testMode then call env f data else Ok (VBool false)
  end.

(** The JavaScript values that stand for a load rule. *)
Inductive represents : LoadRule -> Value -> Prop :=
| rep_bool b : represents (RBool b) (VBool b)
| rep_pred f : represents (RPred f) (VFun f)
| rep_omitted f fs :
    assoc "rule" fs = VFun f -> assoc "test" fs = VUndef ->
    represents (RStruct f None) (VObj fs)
| rep_test f b fs :
    assoc "rule" fs = VFun f -> assoc "test" fs = VBool b ->
    represents (RStruct f (Some b)) (VObj fs).

(** A rule that is neither a boolean, nor a function, nor a record with a
    callable [rule] field. *)
Definition malformed (env : Env) (rule : Value) : bool :=
  match rule with
  | VBool _ | VFun _ => false
  | VUndef | VNull | VClass _ => true
  | _ => match get env rule "rule" with VFun _ => false | _ => true end
  end.

(** The condition under which [validateRule] goes on to call [rule.rule]. *)
Definition gate_open (test : Value) (testMode : bool) : bool :=
  negb (truthy test)
  || (match test with VBool true => true | _ => false end && testMode).

Definition with_plugins (ps : list Plugin) (w : World) : World :=
  set_dal (fun d =>
    mkDatalayer (initialized d) (metaPrefix d) (globalData d) (globalConfig d)
      (testModeActive d) ps (broadcastQueue d) (broadcastHistory d)
      (readyPromise d)) w.

(** A property of the datalayer object is kept by a computation when it
    holds after the computation, thrown or not, whenever it held before. *)
Definition keeps {A} (I : Datalayer -> Prop) (m : M A) : Prop :=
  forall w, I (dal w) -> I (dal (snd (m w))).

Definition wellformed (d : Datalayer) : Prop :=
  broadcastHistory d = VUndef
  /\ is_object (globalConfig d)
  /\ readyPromise d <> Rejected.

(** [d'] is [d] after some growth. *)
Definition grows (d d' : Datalayer) : Prop :=
  (initialized d = true -> initialized d' = true)
  /\ (exists ps, plugins d' = plugins d ++ ps)
  /\ (exists es, broadcastQueue d' = broadcastQueue d ++ es)
  /\ testModeActive d' = testModeActive d.

(** The calls a page makes on the datalayer.  A call that throws leaves
    the page with the datalayer as the throw left it. *)
Inductive Call : Type :=
| CallBroadcast (name data : Value)
| CallAddPlugin (pluginClass config : Value)
| CallInitialize (options : Value).

Definition run_call (env : Env) (c : Call) (w : World) : World :=
  match c with
  | CallBroadcast name data => snd (broadcast env name data w)
  | CallAddPlugin pluginClass config => snd (addPlugin env pluginClass config w)
  | CallInitialize options => snd (initialize env options w)
  end.

Inductive reachable (env : Env) : World -> Prop :=
| reach_new b : reachable env (new_world b)
| reach_call w c : reachable env w -> reachable env (run_call env c w).

(** Calls made one after the other. *)
Definition run_calls (env : Env) (cs : list Call) (w : World) : World :=
  fold_left (fun w c => run_call env c w) cs w.

(** One [broadcast] call per event, in order. *)
Definition broadcasts (events : list (Value * Value)) : list Call :=
  map (fun e => CallBroadcast (fst e) (snd e)) events.

(** A handler call without its timestamp: who was called, with what. *)
Definition call_of (d : Delivery) : Plugin * (Value * Value) :=
  (d_plugin d, (d_name d, d_data d)).

(** The candidates of [options.plugins]. *)
Definition candidates (env : Env) (options : Value) : list Value :=
  match or_else (get env options "plugins") (VArr []) with
  | VArr items => items
  | _ => []
  end.

(** The body of the plugin loop of [initialize] (source lines 189 to
    193), for stating what one round does. *)
Definition admit_candidate (env : Env) (pluginOptions : Value) : M unit :=
  rule <- prop env pluginOptions "rule" ;;
  accepted <- validateRule env rule ;;
  if truthy accepted then
    type <- prop env pluginOptions "type" ;;
    config <- prop env pluginOptions "config" ;;
    addPlugin env type config
  else ret tt.

(** The candidate's rule holds in datalayer [d]: [validateRule] returns a
    truthy value. *)
Definition accepted (env : Env) (d : Datalayer) (candidate : Value) : bool :=
  match fst (validateRule env (get env candidate "rule") (mkWorld d 0 0 [] [])) with
  | Ok r => truthy r
  | Throw _ => false
  end.

(** The instances built for the candidates that are accepted and name a
    class, in order, the first of them being object number [oid]. *)
Fixpoint admissions (env : Env) (d : Datalayer) (items : list Value) (oid : nat)
  : list Plugin :=
  match items with
  | [] => []
  | o :: rest =>
      if accepted env d o then
        match get env o "type" with
        | VClass c =>
            mkPlugin c (effective_config env c (get env o "config") d) oid
            :: admissions env d rest (S oid)
        | _ => admissions env d rest oid
        end
      else admissions env d rest oid
  end.

(** [d] is [d0] with plugins appended and nothing else changed. *)
Definition plugins_extended (d0 d : Datalayer) : Prop :=
  exists ps,
    d = mkDatalayer (initialized d0) (metaPrefix d0) (globalData d0)
          (globalConfig d0) (testModeActive d0) (plugins d0 ++ ps)
          (broadcastQueue d0) (broadcastHistory d0) (readyPromise d0).

(** The three checks of [initialize] on the data the datalayer holds. *)
Definition data_valid (env : Env) (d : Datalayer) : Prop :=
  page_ok env (globalData d) = true
  /\ site_ok env (globalData d) = true
  /\ user_ok env (globalData d) = true.

(** The cookie is set to a non-empty value. *)
Definition cookie_set (b : Browser) : bool :=
  match cookie_odltest b with
  | Some (String _ _) => true
  | _ => false
  end.

(** ** The event queue of the specification *)

Module EventQueue.

(** Modelled from the spec: the error [subscribe] fails with.  The class
    [EventQueue] of lib/queue.js is not among the sources (only its test,
    lib/queue.spec.js, is), and [datalayer.js] does not use it. *)
Definition InvalidSubscriberError : Error := Err "InvalidSubscriberError".

(** Modelled from the spec: an Event, the tuple of name, payload and
    timestamp made at broadcast time (section 3). *)
Record Event : Type := mkEvent {
  name : Value;
  payload : Value;
  timestampMillis : Z
}.

(** Modelled from the spec: the EventQueue, an ordered history and the
    subscribers in subscription order (section 3). *)
Record Queue : Type := mkQueue {
  history : list Event;
  subscribers : list Plugin
}.

(** The queue with the clock readings taken and the [handleEvent] calls
    made so far. *)
Record State : Type := mkState {
  queue : Queue;
  clock : nat;
  calls : list Delivery
}.

(** One delivery: [subscriber.handleEvent(name, payload, timestamp)]. *)
Definition deliver (env : Env) (s : Plugin) (e : Event) (st : State)
  : Outcome unit * State :=
  let st' := mkState (queue st) (clock st)
               (calls st ++ [mkDelivery s (name e) (payload e) (timestampMillis e)]) in
  match handleEvent_fails env s (name e) (payload e) (timestampMillis e) with
  | Some err => (Throw err, st')
  | None => (Ok tt, st')
  end.

Fixpoint deliver_each (env : Env) (targets : list (Plugin * Event)) (st : State)
  : Outcome unit * State :=
  match targets with
  | [] => (Ok tt, st)
  | (s, e) :: rest =>
      match deliver env s e st with
      | (Ok _, st') => deliver_each env rest st'
      | (Throw err, st') => (Throw err, st')
      end
  end.

(** Modelled from the spec: [subscribe(subscriber, replayHistory = false)]
    (section 4.1).  It fails with [InvalidSubscriberError] if the
    subscriber lacks [handleEvent]; otherwise it appends the subscriber
    and, if [replayHistory] is true, delivers every historical event to it
    in original order before it returns. *)
Definition subscribe (env : Env) (subscriber : Plugin) (replayHistory : bool)
  (st : State) : Outcome unit * State :=
  if has_handleEvent env subscriber then
    let st1 := mkState
                 (mkQueue (history (queue st))
                    (subscribers (queue st) ++ [subscriber]))
                 (clock st) (calls st) in
    if replayHistory
    then deliver_each env (map (fun e => (subscriber, e)) (history (queue st))) st1
    else (Ok tt, st1)
  else (Throw InvalidSubscriberError, st).

(** Modelled from the spec: [broadcastEvent(name, payload)] (section
    4.1).  It makes the event with the current clock reading, appends it
    to the history, then delivers it to every subscriber in subscription
    order. *)
Definition broadcastEvent (env : Env) (n p : Value) (st : State)
  : Outcome unit * State :=
  let e := mkEvent n p (getTime env (clock st)) in
  let st1 := mkState
               (mkQueue (history (queue st) ++ [e]) (subscribers (queue st)))
               (S (clock st)) (calls st) in
  deliver_each env (map (fun s => (s, e)) (subscribers (queue st))) st1.

End EventQueue.

(** ** Delivery *)

Arguments sendEventToPlugin : simpl never.

Section Delivery.

Variable env : Env.

Lemma sendEventToPlugin_run p name data w :
  sendEventToPlugin env (Some p) name data w =
  if has_handleEvent env p then
    (match handleEvent_fails env p name data (getTime env (clock_reads w)) with
     | Some e => Throw e
     | None => Ok tt
     end,
     mkWorld (dal w) (allocated w) (S (clock_reads w)) (console w)
       (handled w ++ [mkDelivery p name data (getTime env (clock_reads w))]))
  else (Ok tt, w).
Proof.
  unfold sendEventToPlugin.
  destruct (has_handleEvent env p); [| reflexivity].
  unfold bind, now, record_call; simpl.
  destruct (handleEvent_fails env p name data _); reflexivity.
Qed.

Lemma deliveries_app ps qs name data k :
  deliveries env (ps ++ qs) name data k =
  deliveries env ps name data k
  ++ deliveries env qs name data (k + length (deliveries env ps name data k)).
Proof.
  revert k; induction ps as [| p ps IH]; intros k; simpl.
  - now rewrite Nat.add_0_r.
  - destruct (has_handleEvent env p); simpl.
    + rewrite IH. do 3 f_equal. lia.
    + apply IH.
Qed.

(** Every handler returning, the loop of [broadcast] calls each capable
    plugin once, in order, and touches nothing else. *)
Lemma forEach_send_ok ps name data w :
  (forall p ts, In p ps -> handleEvent_fails env p name data ts = None) ->
  forEach (fun plugin => sendEventToPlugin env (Some plugin) name data) ps w =
  (Ok tt,
   mkWorld (dal w) (allocated w)
     (clock_reads w + length (deliveries env ps name data (clock_reads w)))
     (console w)
     (handled w ++ deliveries env ps name data (clock_reads w))).
Proof.
  revert w; induction ps as [| p ps IH]; intros w Hok; simpl.
  - unfold ret. rewrite Nat.add_0_r, app_nil_r. now destruct w.
  - unfold bind. rewrite sendEventToPlugin_run.
    destruct (has_handleEvent env p).
    + rewrite (Hok p _ (or_introl eq_refl)).
      rewrite IH by (intros; apply Hok; now right).
      simpl. f_equal. f_equal; [lia | now rewrite <- app_assoc].
    + apply IH. intros; apply Hok; now right.
Qed.

(** The first handler that throws ends the loop: the plugins after it are
    not called. *)
Lemma forEach_send_fail before p after name data w e :
  (forall q ts, In q before -> handleEvent_fails env q name data ts = None) ->
  has_handleEvent env p = true ->
  handleEvent_fails env p name data
    (getTime env (clock_reads w
                  + length (deliveries env before name data (clock_reads w))))
  = Some e ->
  forEach (fun plugin => sendEventToPlugin env (Some plugin) name data)
    (before ++ p :: after) w =
  (Throw e,
   mkWorld (dal w) (allocated w)
     (S (clock_reads w
         + length (deliveries env before name data (clock_reads w))))
     (console w)
     (handled w ++ deliveries env (before ++ [p]) name data (clock_reads w))).
Proof.
  revert w; induction before as [| q before IH]; intros w Hok Hcap Hfail.
  - simpl in *. rewrite Nat.add_0_r in Hfail.
    unfold bind. rewrite sendEventToPlugin_run, Hcap, Hfail.
    now rewrite Nat.add_0_r.
  - simpl in Hfail |- *. unfold bind. rewrite sendEventToPlugin_run.
    destruct (has_handleEvent env q) eqn:Hq; simpl in Hfail.
    + rewrite (Hok q _ (or_introl eq_refl)).
      rewrite IH; simpl.
      * f_equal. f_equal; [lia | now rewrite <- app_assoc].
      * intros; apply Hok; now right.
      * exact Hcap.
      * rewrite <- Hfail. do 2 f_equal. lia.
    + apply IH; auto. intros; apply Hok; now right.
Qed.

(** Whatever the handlers do, the loop leaves the datalayer object, the
    object counter and the console alone. *)
Lemma forEach_send_frame ps name data w :
  let w' := snd (forEach (fun plugin =>
                   sendEventToPlugin env (Some plugin) name data) ps w) in
  dal w' = dal w /\ allocated w' = allocated w /\ console w' = console w.
Proof.
  revert w; induction ps as [| p ps IH]; intros w; simpl; [auto |].
  unfold bind. rewrite sendEventToPlugin_run.
  destruct (has_handleEvent env p); [| apply IH].
  destruct (handleEvent_fails env p name data _); simpl; [auto |].
  match goal with |- context [forEach _ ps ?w1] => specialize (IH w1) end.
  simpl in IH. exact IH.
Qed.

Lemma deliveries_nth ps name data k0 k d :
  nth_error (deliveries env ps name data k0) k = Some d ->
  d_name d = name /\ d_data d = data /\ d_ts d = getTime env (k0 + k).
Proof.
  revert k0 k; induction ps as [| p ps IH]; intros k0 k; simpl.
  - destruct k; discriminate.
  - destruct (has_handleEvent env p); [| apply IH].
    destruct k as [| k]; simpl.
    + intros [= <-]. simpl. now rewrite Nat.add_0_r.
    + intros H. apply IH in H. now rewrite Nat.add_succ_r.
Qed.

Lemma broadcast_ok name data w :
  (forall p ts, In p (plugins (dal w)) ->
                handleEvent_fails env p name data ts = None) ->
  broadcast env name data w =
  (Ok tt,
   mkWorld (push_event (name, data) (dal w)) (allocated w)
     (clock_reads w
      + length (deliveries env (plugins (dal w)) name data (clock_reads w)))
     (console w)
     (handled w ++ deliveries env (plugins (dal w)) name data (clock_reads w))).
Proof.
  intros Hok. unfold broadcast, bind at 1, this.
  unfold bind. now rewrite forEach_send_ok.
Qed.

Lemma broadcast_fail before p after name data w e :
  plugins (dal w) = before ++ p :: after ->
  (forall q ts, In q before -> handleEvent_fails env q name data ts = None) ->
  has_handleEvent env p = true ->
  handleEvent_fails env p name data
    (getTime env (clock_reads w
                  + length (deliveries env before name data (clock_reads w))))
  = Some e ->
  broadcast env name data w =
  (Throw e,
   mkWorld (dal w) (allocated w)
     (S (clock_reads w
         + length (deliveries env before name data (clock_reads w))))
     (console w)
     (handled w ++ deliveries env (before ++ [p]) name data (clock_reads w))).
Proof.
  intros Hps Hok Hcap Hfail. unfold broadcast, bind at 1, this.
  unfold bind. rewrite Hps. now rewrite (forEach_send_fail _ _ _ _ _ _ e).
Qed.

Lemma deliveries_plugins ps name data k :
  map d_plugin (deliveries env ps name data k) = filter (has_handleEvent env) ps.
Proof.
  revert k; induction ps as [| p ps IH]; intros k; simpl; [reflexivity |].
  destruct (has_handleEvent env p); simpl; now rewrite IH.
Qed.

(** A plugin without [handleEvent] is passed over by the loop. *)
Lemma forEach_send_skip before p after name data w :
  has_handleEvent env p = false ->
  forEach (fun plugin => sendEventToPlugin env (Some plugin) name data)
    (before ++ p :: after) w =
  forEach (fun plugin => sendEventToPlugin env (Some plugin) name data)
    (before ++ after) w.
Proof.
  intros Hp. revert w; induction before as [| q before IH]; intros w; simpl.
  - unfold bind at 1. now rewrite sendEventToPlugin_run, Hp.
  - unfold bind. destruct (sendEventToPlugin env (Some q) name data w) as [[[] | e] w1];
      [apply IH | reflexivity].
Qed.

(** The loop does not look at the datalayer object. *)
Lemma forEach_send_set_dal f ps name data w :
  forEach (fun plugin => sendEventToPlugin env (Some plugin) name data) ps
    (set_dal f w) =
  let r := forEach (fun plugin => sendEventToPlugin env (Some plugin) name data)
             ps w in
  (fst r, set_dal f (snd r)).
Proof.
  revert w; induction ps as [| p ps IH]; intros w; simpl; [reflexivity |].
  unfold bind. rewrite !sendEventToPlugin_run.
  destruct (has_handleEvent env p); [| apply IH].
  simpl. destruct (handleEvent_fails env p name data _); [reflexivity |].
  match goal with |- _ = (fst (forEach _ ps ?w1), _) => apply (IH w1) end.
Qed.

End Delivery.

(** ** Admission *)

Section Admission.

Variable env : Env.

Lemma prop_object v k w : is_object v -> prop env v k w = (Ok (get env v k), w).
Proof. intros [H1 H2]. destruct v; try reflexivity; contradiction. Qed.

(** With no broadcast recorded, admission constructs the plugin and
    appends it. *)
Lemma addPlugin_empty_queue c config w :
  is_object (globalConfig (dal w)) ->
  construct_fails env c (globalData (dal w)) (effective_config env c config (dal w))
  = None ->
  broadcastQueue (dal w) = [] ->
  addPlugin env (VClass c) config w =
  (Ok tt,
   mkWorld (push_plugin (admitted_plugin env c config w) (dal w)) (S (allocated w))
     (clock_reads w) (console w) (handled w)).
Proof.
  intros Hcfg Hnew Hq. unfold addPlugin, bind at 1, this.
  unfold bind at 1. rewrite prop_object by assumption.
  unfold effective_config in Hnew. rewrite Hnew, Hq. reflexivity.
Qed.

(** With a broadcast recorded, the catch-up loop is entered, reads
    [this.broadcastHistory[0]] and throws: the plugin has been appended
    but no event reaches it. *)
Lemma addPlugin_replay_throws c config w :
  is_object (globalConfig (dal w)) ->
  construct_fails env c (globalData (dal w)) (effective_config env c config (dal w))
  = None ->
  broadcastQueue (dal w) <> [] ->
  broadcastHistory (dal w) = VUndef ->
  addPlugin env (VClass c) config w =
  (Throw TypeError,
   mkWorld (push_plugin (admitted_plugin env c config w) (dal w)) (S (allocated w))
     (clock_reads w) (console w) (handled w)).
Proof.
  intros Hcfg Hnew Hq Hh. unfold addPlugin, bind at 1, this.
  unfold bind at 1. rewrite prop_object by assumption.
  unfold effective_config in Hnew. rewrite Hnew.
  destruct (broadcastQueue (dal w)) as [| ev q]; [contradiction |].
  simpl. unfold bind, new_oid, update, this, index; simpl. rewrite Hh.
  reflexivity.
Qed.

(** A registered plugin without [handleEvent] changes nothing about a
    broadcast: outcome, deliveries, clock readings and history are those of
    the same broadcast without it. *)
Lemma broadcast_skips_incapable before p after name data w :
  has_handleEvent env p = false ->
  broadcast env name data (with_plugins (before ++ p :: after) w) =
  let r := broadcast env name data (with_plugins (before ++ after) w) in
  (fst r, with_plugins (before ++ p :: after) (snd r)).
Proof.
  intros Hp. unfold broadcast, bind at 1 3, this. simpl.
  unfold with_plugins, bind.
  rewrite !forEach_send_set_dal. simpl.
  rewrite (forEach_send_skip env before p after name data w Hp).
  destruct (forEach _ (before ++ after) w) as [[[] | e] w1]; reflexivity.
Qed.

Lemma index_cases v i w :
  index v i w = (Throw TypeError, w) \/ exists x, index v i w = (Ok x, w).
Proof.
  destruct v; unfold index, ret, throw; auto; right; eexists; reflexivity.
Qed.

Lemma bind_returns {A B} (m : M A) (k : A -> M B) w a w1 :
  m w = (Ok a, w1) -> bind m k w = k a w1.
Proof. intros H. unfold bind. now rewrite H. Qed.

Lemma bind_throws {A B} (m : M A) (k : A -> M B) w e w1 :
  m w = (Throw e, w1) -> bind m k w = (Throw e, w1).
Proof. intros H. unfold bind. now rewrite H. Qed.

(** One round of the catch-up loop for a plugin without [handleEvent]. *)
Lemma replay_round_incapable p i w :
  has_handleEvent env p = false ->
  (d <- this ;;
   event <- index (broadcastHistory d) i ;;
   name <- index event 0 ;;
   data <- index event 1 ;;
   sendEventToPlugin env (Some p) name data) w = (Ok tt, w)
  \/
  (d <- this ;;
   event <- index (broadcastHistory d) i ;;
   name <- index event 0 ;;
   data <- index event 1 ;;
   sendEventToPlugin env (Some p) name data) w = (Throw TypeError, w).
Proof.
  intros Hp.
  rewrite (bind_returns this _ w (dal w) w eq_refl).
  destruct (index_cases (broadcastHistory (dal w)) i w) as [H | [event H]].
  { right. now rewrite (bind_throws _ _ _ _ _ H). }
  rewrite (bind_returns _ _ _ _ _ H).
  destruct (index_cases event 0 w) as [H0 | [name H0]].
  { right. now rewrite (bind_throws _ _ _ _ _ H0). }
  rewrite (bind_returns _ _ _ _ _ H0).
  destruct (index_cases event 1 w) as [H1 | [data H1]].
  { right. now rewrite (bind_throws _ _ _ _ _ H1). }
  rewrite (bind_returns _ _ _ _ _ H1).
  rewrite sendEventToPlugin_run, Hp. now left.
Qed.

(** Whatever the history holds, the catch-up loop for a plugin without
    [handleEvent] calls no handler and changes nothing; it can only throw
    a [TypeError] from its reads. *)
Lemma replay_incapable p l w :
  has_handleEvent env p = false ->
  let r := forEach (fun i =>
             d <- this ;;
             event <- index (broadcastHistory d) i ;;
             name <- index event 0 ;;
             data <- index event 1 ;;
             sendEventToPlugin env (Some p) name data) l w in
  snd r = w /\ (fst r = Ok tt \/ fst r = Throw TypeError).
Proof.
  intros Hp. cbv zeta. induction l as [| i l IH]; simpl; [auto |].
  destruct (replay_round_incapable p i w Hp) as [H | H].
  - rewrite (bind_returns _ _ _ _ _ H). exact IH.
  - rewrite (bind_throws _ _ _ _ _ H). auto.
Qed.

(** Admission does not look at [handleEvent]: the instance of a class
    whose constructor returns is appended whatever it can do, no handler
    is called for an instance without [handleEvent], and the call returns
    or throws a [TypeError] from the catch-up loop. *)
Lemma addPlugin_incapable c config w :
  has_handleEvent env (admitted_plugin env c config w) = false ->
  is_object (globalConfig (dal w)) ->
  construct_fails env c (globalData (dal w)) (effective_config env c config (dal w))
  = None ->
  snd (addPlugin env (VClass c) config w)
  = mkWorld (push_plugin (admitted_plugin env c config w) (dal w))
      (S (allocated w)) (clock_reads w) (console w) (handled w)
  /\ (fst (addPlugin env (VClass c) config w) = Ok tt
      \/ fst (addPlugin env (VClass c) config w) = Throw TypeError).
Proof.
  intros Hcap Hcfg Hnew.
  assert (Hrun : addPlugin env (VClass c) config w
                 = forEach (fun i =>
                     d <- this ;;
                     event <- index (broadcastHistory d) i ;;
                     name <- index event 0 ;;
                     data <- index event 1 ;;
                     sendEventToPlugin env (Some (admitted_plugin env c config w))
                       name data)
                     (seq 0 (List.length (broadcastQueue (dal w))))
                     (mkWorld (push_plugin (admitted_plugin env c config w) (dal w))
                        (S (allocated w)) (clock_reads w) (console w) (handled w))).
  { unfold addPlugin, bind at 1, this.
    unfold bind at 1. rewrite prop_object by assumption.
    unfold effective_config in Hnew. rewrite Hnew. reflexivity. }
  rewrite Hrun. now apply replay_incapable.
Qed.

End Admission.

(** ** Rule evaluation *)

Section Rules.

Variable env : Env.

(** [validateRule] changes nothing. *)
Lemma validateRule_pure rule w : snd (validateRule env rule w) = w.
Proof.
  unfold validateRule, bind at 1, this.
  destruct rule; try reflexivity;
    try (unfold bind, prop, ret, throw; simpl;
         match goal with
         | |- context [if ?c then _ else _] => destruct c
         end; try reflexivity;
         match goal with
         | |- context [invoke env ?r] => destruct r
         end; reflexivity).
Qed.

(** What [validateRule] does with a value that is not a boolean and not a
    function. *)
Lemma validateRule_record rule w :
  is_object rule ->
  (forall b, rule <> VBool b) -> (forall f, rule <> VFun f) ->
  (forall c, rule <> VClass c) ->
  validateRule env rule w =
  if gate_open (get env rule "test") (testModeActive (dal w))
  then invoke env (get env rule "rule") (globalData (dal w)) w
  else (Ok (VBool false), w).
Proof.
  intros [Hu Hn] Hb Hf Hc. unfold validateRule, bind at 1, this, gate_open.
  destruct rule; try contradiction;
    try (exfalso; eapply Hb; reflexivity);
    try (exfalso; eapply Hf; reflexivity);
    try (exfalso; eapply Hc; reflexivity);
    unfold bind, prop, ret;
    match goal with
    | |- context [if ?c then _ else _] => destruct c
    end; reflexivity.
Qed.

End Rules.

(** ** Initialisation *)

Section Initialisation.

Variable env : Env.

Lemma truthy_object v : truthy v = true -> is_object v.
Proof. destruct v; simpl; intros H; split; congruence. Qed.

Lemma scanned_object v : is_object v -> is_object (scanned env v).
Proof. intros [H1 H2]. destruct v; simpl; split; congruence. Qed.

Lemma or_else_object a b : is_object b -> is_object (or_else a b).
Proof.
  intros Hb. unfold or_else. destruct (truthy a) eqn:Ha; [| exact Hb].
  now apply truthy_object.
Qed.

(** An uninitialised datalayer given an options object stores config and
    data, scans the markup and validates page, site and user in that
    order; when all three pass it goes on to the plugin loop. *)
Lemma initialize_validation options w :
  initialized (dal w) = false ->
  is_object options ->
  initialize env options w =
  let data := supplied_data env options in
  if negb (page_ok env data) then (Throw page_error, prepared env options w)
  else if negb (site_ok env data) then (Throw site_error, prepared env options w)
  else if negb (user_ok env data) then (Throw user_error, prepared env options w)
  else after_validation env (or_else (get env options "plugins") (VArr []))
         (prepared env options w).
Proof.
  intros Hinit Hobj. unfold initialize, bind at 1, this. rewrite Hinit.
  unfold bind at 1. rewrite prop_object by assumption.
  unfold bind at 1. rewrite prop_object by assumption.
  unfold bind at 1. rewrite prop_object by assumption.
  unfold bind at 1, update at 1. unfold bind at 1, update at 1.
  unfold bind at 1, scanForDataMarkup, update at 1.
  unfold bind at 1, this.
  assert (Hw : set_dal
             (fun d => match globalData d with
                       | VObj fs => set_globalData (VObj (collectMetadata env fs)) d
                       | _ => d
                       end)
             (set_dal (set_globalData (or_else (get env options "data") (VObj [])))
                (set_dal (set_globalConfig
                            (or_else (get env options "config") (VObj []))) w))
           = prepared env options w).
  { unfold prepared, supplied_data, supplied_config, set_dal; simpl.
    destruct (or_else (get env options "data") (VObj [])); reflexivity. }
  rewrite Hw. clear Hw.
  assert (Hd : globalData (dal (prepared env options w)) = supplied_data env options)
    by reflexivity.
  rewrite Hd. clear Hd.
  assert (Hdata : is_object (supplied_data env options)).
  { apply scanned_object, or_else_object. split; discriminate. }
  set (data := supplied_data env options) in *.
  set (w1 := prepared env options w).
  unfold bind at 1. rewrite prop_object by assumption.
  unfold page_ok, site_ok, user_ok, page_error, site_error, user_error.
  destruct (truthy (get env data "page")) eqn:Hpage; simpl; [| reflexivity].
  unfold bind at 1. rewrite prop_object by (now apply truthy_object).
  destruct (truthy (get env (get env data "page") "type")) eqn:Htype; simpl;
    [| reflexivity].
  unfold bind at 1. rewrite prop_object by (now apply truthy_object).
  destruct (truthy (get env (get env data "page") "name")) eqn:Hname; simpl;
    [| reflexivity].
  unfold bind at 1. rewrite prop_object by assumption.
  destruct (truthy (get env data "site")) eqn:Hsite; simpl; [| reflexivity].
  unfold bind at 1. rewrite prop_object by (now apply truthy_object).
  destruct (truthy (get env (get env data "site") "id")) eqn:Hid; simpl;
    [| reflexivity].
  unfold bind at 1. rewrite prop_object by assumption.
  destruct (truthy (get env data "user")) eqn:Huser; simpl; reflexivity.
Qed.

End Initialisation.

(** ** Readiness *)

Section Readiness.

Variable env : Env.

Lemma bind_ok_inv {A B} (m : M A) (k : A -> M B) w b w' :
  bind m k w = (Ok b, w') ->
  exists a w1, m w = (Ok a, w1) /\ k a w1 = (Ok b, w').
Proof.
  unfold bind. destruct (m w) as [[a | e] w1]; [| discriminate].
  intros H. now exists a, w1.
Qed.

(** However a broadcast ends, the ready flag and the readiness promise are
    what they were. *)
Lemma broadcast_frame name data w :
  let w' := snd (broadcast env name data w) in
  initialized (dal w') = initialized (dal w)
  /\ readyPromise (dal w') = readyPromise (dal w)
  /\ plugins (dal w') = plugins (dal w).
Proof.
  unfold broadcast, bind at 1, this. unfold bind.
  pose proof (forEach_send_frame env (plugins (dal w)) name data w) as Hf.
  destruct (forEach _ (plugins (dal w)) w) as [[[] | e] w1]; simpl in *;
    destruct Hf as (Hd & _); rewrite Hd; auto.
Qed.

(** A call that gets past validation and returns has returned from the
    bare [return]: with [undefined], the flag set and the promise
    settled. *)
Lemma after_validation_ok_inv pluginList w v w' :
  after_validation env pluginList w = (Ok v, w') ->
  v = VUndef /\ initialized (dal w') = true /\ readyPromise (dal w') <> Pending.
Proof.
  unfold after_validation. intros H.
  apply bind_ok_inv in H as (len & w1 & _ & H).
  apply bind_ok_inv in H as ([] & w2 & _ & H).
  apply bind_ok_inv in H as ([] & w3 & Hset & H).
  apply bind_ok_inv in H as (d & w4 & Hthis & H).
  apply bind_ok_inv in H as ([] & w5 & Hb & H).
  apply bind_ok_inv in H as ([] & w6 & Hres & H).
  injection H as <- <-. injection Hres as <-. injection Hthis as <- <-.
  injection Hset as <-.
  pose proof (broadcast_frame (VStr "initialize")
                (globalData (dal (set_dal (set_initialized true) w2)))
                (set_dal (set_initialized true) w2)) as (Hi & _).
  rewrite Hb in Hi. simpl in Hi.
  repeat split.
  - exact Hi.
  - simpl. destruct (readyPromise (dal w5)); discriminate.
Qed.

Lemma initialize_ok_inv options w v w' :
  initialized (dal w) = false ->
  initialize env options w = (Ok v, w') ->
  v = VUndef /\ initialized (dal w') = true /\ readyPromise (dal w') <> Pending.
Proof.
  intros Hinit H.
  assert (Hobj : is_object options).
  { destruct options; try (split; discriminate);
      unfold initialize, bind at 1, this in H; rewrite Hinit in H;
      discriminate H. }
  rewrite (initialize_validation env options w Hinit Hobj) in H.
  cbv zeta in H.
  destruct (page_ok env _); [| discriminate H].
  destruct (site_ok env _); [| discriminate H].
  destruct (user_ok env _); [| discriminate H].
  simpl in H. eapply after_validation_ok_inv; eassumption.
Qed.

(** On an initialised datalayer [initialize] warns and returns false
    before it looks at its argument. *)
Lemma initialize_again options w :
  initialized (dal w) = true ->
  initialize env options w =
  (Ok (VBool false),
   mkWorld (dal w) (allocated w) (clock_reads w)
     (console w ++ ["already initialized"]) (handled w)).
Proof.
  intros Hinit. unfold initialize, bind at 1, this. now rewrite Hinit.
Qed.

(** With valid data, no plugin to load and no handler throwing,
    [initialize] completes: the ['initialize'] event goes to the plugins
    already registered and into the history, and the promise is
    resolved. *)
Lemma initialize_without_plugins options w :
  initialized (dal w) = false ->
  is_object options ->
  page_ok env (supplied_data env options) = true ->
  site_ok env (supplied_data env options) = true ->
  user_ok env (supplied_data env options) = true ->
  truthy (get env (or_else (get env options "plugins") (VArr [])) "length")
  = false ->
  (forall p ts, In p (plugins (dal w)) ->
     handleEvent_fails env p (VStr "initialize") (supplied_data env options) ts
     = None) ->
  initialize env options w =
  (Ok VUndef,
   mkWorld
     (resolve (push_event (VStr "initialize", supplied_data env options)
                 (set_initialized true (dal (prepared env options w)))))
     (allocated w)
     (clock_reads w
      + length (deliveries env (plugins (dal w)) (VStr "initialize")
                  (supplied_data env options) (clock_reads w)))
     (console w)
     (handled w ++ deliveries env (plugins (dal w)) (VStr "initialize")
                     (supplied_data env options) (clock_reads w))).
Proof.
  intros Hinit Hobj Hp Hs Hu Hlen Hok.
  rewrite (initialize_validation env options w Hinit Hobj). cbv zeta.
  rewrite Hp, Hs, Hu. simpl.
  unfold after_validation. unfold bind at 1.
  rewrite prop_object by (apply or_else_object; split; discriminate).
  rewrite Hlen. unfold bind at 1, ret at 1. unfold bind at 1, update at 1.
  unfold bind at 1, this. unfold bind at 1.
  rewrite broadcast_ok by exact Hok. reflexivity.
Qed.

End Readiness.

(** ** What no method undoes *)

Section Invariant.

Variable env : Env.
Variable I : Datalayer -> Prop.

Hypothesis I_set_initialized : forall d, I d -> I (set_initialized true d).
Hypothesis I_set_globalConfig :
  forall v d, is_object v -> I d -> I (set_globalConfig v d).
Hypothesis I_set_globalData : forall v d, I d -> I (set_globalData v d).
Hypothesis I_push_plugin : forall p d, I d -> I (push_plugin p d).
Hypothesis I_push_event : forall e d, I d -> I (push_event e d).
Hypothesis I_resolve : forall d, I d -> I (resolve d).

Lemma keeps_ret {A} (a : A) : keeps I (ret a).
Proof. intros w H; exact H. Qed.

Lemma keeps_throw {A} e : keeps I (@throw A e).
Proof. intros w H; exact H. Qed.

Lemma keeps_lift {A} (o : Outcome A) : keeps I (lift o).
Proof. intros w H; exact H. Qed.

Lemma keeps_this : keeps I this.
Proof. intros w H; exact H. Qed.

Lemma keeps_bind {A B} (m : M A) (k : A -> M B) :
  keeps I m -> (forall a, keeps I (k a)) -> keeps I (bind m k).
Proof.
  intros Hm Hk w H. unfold bind. specialize (Hm w H).
  destruct (m w) as [[a | e] w1]; simpl in Hm; [now apply Hk | exact Hm].
Qed.

Lemma keeps_forEach {A} (f : A -> M unit) l :
  (forall a, keeps I (f a)) -> keeps I (forEach f l).
Proof.
  intros Hf. induction l as [| a l IH]; simpl.
  - apply keeps_ret.
  - apply keeps_bind; auto.
Qed.

Lemma keeps_update f : (forall d, I d -> I (f d)) -> keeps I (update f).
Proof. intros Hf w H. now apply Hf. Qed.

Lemma keeps_prop v k : keeps I (prop env v k).
Proof. destruct v; intros w H; exact H. Qed.

Lemma keeps_index v i : keeps I (index v i).
Proof. destruct v; intros w H; exact H. Qed.

Lemma keeps_invoke f arg : keeps I (invoke env f arg).
Proof. destruct f; intros w H; exact H. Qed.

Lemma keeps_sendEventToPlugin p name data :
  keeps I (sendEventToPlugin env p name data).
Proof.
  destruct p as [p |]; [| apply keeps_ret].
  intros w H. rewrite sendEventToPlugin_run.
  destruct (has_handleEvent env p); exact H.
Qed.

Lemma keeps_broadcast name data : keeps I (broadcast env name data).
Proof.
  unfold broadcast. apply keeps_bind; [apply keeps_this | intros d].
  apply keeps_bind.
  - apply keeps_forEach. intros p. apply keeps_sendEventToPlugin.
  - intros _. apply keeps_update. intros; now apply I_push_event.
Qed.

Lemma keeps_validateRule rule : keeps I (validateRule env rule).
Proof. intros w H. now rewrite validateRule_pure. Qed.

Lemma keeps_addPlugin pluginClass config : keeps I (addPlugin env pluginClass config).
Proof.
  unfold addPlugin.
  destruct pluginClass;
    try (apply keeps_bind; [apply keeps_prop | intros g];
         apply keeps_bind; [apply keeps_invoke | intros _; apply keeps_throw]).
  apply keeps_bind; [apply keeps_this | intros d].
  apply keeps_bind; [apply keeps_prop | intros cfg0].
  destruct (construct_fails env c _ _); [apply keeps_throw |].
  apply keeps_bind; [intros w H; exact H | intros oid].
  apply keeps_bind; [apply keeps_update; intros; now apply I_push_plugin |].
  intros _. apply keeps_forEach. intros i.
  apply keeps_bind; [apply keeps_this | intros d'].
  apply keeps_bind; [apply keeps_index | intros event].
  apply keeps_bind; [apply keeps_index | intros name].
  apply keeps_bind; [apply keeps_index | intros data].
  apply keeps_sendEventToPlugin.
Qed.

Lemma keeps_after_validation pluginList :
  keeps I (after_validation env pluginList).
Proof.
  unfold after_validation.
  apply keeps_bind; [apply keeps_prop | intros len].
  apply keeps_bind.
  - destruct (truthy len); [| apply keeps_ret].
    destruct pluginList; try apply keeps_throw.
    apply keeps_forEach. intros o.
    apply keeps_bind; [apply keeps_prop | intros rule].
    apply keeps_bind; [apply keeps_validateRule | intros accepted].
    destruct (truthy accepted); [| apply keeps_ret].
    apply keeps_bind; [apply keeps_prop | intros type].
    apply keeps_bind; [apply keeps_prop | intros config].
    apply keeps_addPlugin.
  - intros _.
    apply keeps_bind; [apply keeps_update; exact I_set_initialized | intros _].
    apply keeps_bind; [apply keeps_this | intros d].
    apply keeps_bind; [apply keeps_broadcast | intros _].
    apply keeps_bind; [apply keeps_update; exact I_resolve | intros _].
    apply keeps_ret.
Qed.

Lemma keeps_initialize options : keeps I (initialize env options).
Proof.
  intros w H.
  destruct (initialized (dal w)) eqn:Hinit.
  - now rewrite initialize_again.
  - assert (Hobj : {is_object options} + {options = VUndef \/ options = VNull}).
    { destruct options; try (left; split; discriminate); right; auto. }
    destruct Hobj as [Hobj | Hno].
    + assert (Hprep : I (dal (prepared env options w))).
      { simpl. apply I_set_globalData, I_set_globalConfig; [| exact H].
        apply or_else_object. split; discriminate. }
      rewrite (initialize_validation env options w Hinit Hobj). cbv zeta.
      destruct (page_ok env _); [| exact Hprep].
      destruct (site_ok env _); [| exact Hprep].
      destruct (user_ok env _); [| exact Hprep].
      simpl. now apply keeps_after_validation.
    + unfold initialize, bind at 1, this. rewrite Hinit.
      destruct Hno as [-> | ->]; exact H.
Qed.

End Invariant.

Section Reachable.

Variable env : Env.

Lemma run_call_keeps (I : Datalayer -> Prop) :
  (forall d, I d -> I (set_initialized true d)) ->
  (forall v d, is_object v -> I d -> I (set_globalConfig v d)) ->
  (forall v d, I d -> I (set_globalData v d)) ->
  (forall p d, I d -> I (push_plugin p d)) ->
  (forall e d, I d -> I (push_event e d)) ->
  (forall d, I d -> I (resolve d)) ->
  forall c w, I (dal w) -> I (dal (run_call env c w)).
Proof.
  intros H1 H2 H3 H4 H5 H6 c w H. destruct c; simpl.
  - now apply (keeps_broadcast env I).
  - now apply (keeps_addPlugin env I).
  - now apply (keeps_initialize env I).
Qed.

(** The class never assigns [broadcastHistory], always holds an object in
    [globalConfig] and never rejects the readiness promise. *)
Lemma reachable_wellformed w : reachable env w -> wellformed (dal w).
Proof.
  induction 1 as [b | w c Hw IH].
  - repeat split; discriminate.
  - revert IH. apply run_call_keeps; unfold wellformed; simpl.
    + intros d (? & ? & ?); auto.
    + intros v d ? (? & ? & ?); auto.
    + intros v d (? & ? & ?); auto.
    + intros p d (? & ? & ?); auto.
    + intros e d (? & ? & ?); auto.
    + intros d (? & ? & Hr). split; [| split]; auto.
      destruct (readyPromise d); [discriminate | discriminate | exact Hr].
Qed.

(** Plugin list and history are append-only, the ready flag is never
    cleared and the test-mode flag never changes. *)
Lemma run_call_grows c w : grows (dal w) (dal (run_call env c w)).
Proof.
  assert (Hrefl : grows (dal w) (dal w)).
  { repeat split; auto; exists []; now rewrite app_nil_r. }
  revert Hrefl. apply run_call_keeps; unfold grows; simpl.
  - intros d (? & ? & ? & ?); auto.
  - intros v d _ (? & ? & ? & ?); auto.
  - intros v d (? & ? & ? & ?); auto.
  - intros p d (Hi & [ps ->] & ? & ?). repeat split; auto.
    exists (ps ++ [p]). now rewrite app_assoc.
  - intros e d (Hi & ? & [es ->] & ?). repeat split; auto.
    exists (es ++ [e]). now rewrite app_assoc.
  - intros d (? & ? & ? & ?); auto.
Qed.

(** No call rejects the readiness promise. *)
Lemma run_call_never_rejects c w :
  readyPromise (dal w) <> Rejected ->
  readyPromise (dal (run_call env c w)) <> Rejected.
Proof.
  apply (run_call_keeps (fun d => readyPromise d <> Rejected)); simpl; auto.
  intros d Hr. destruct (readyPromise d); [discriminate | discriminate | exact Hr].
Qed.

(** In every world the class can get into, admitting a plugin once a
    broadcast has been recorded throws a [TypeError] from the catch-up
    loop, and the plugin, though appended, is handed no event. *)
Lemma addPlugin_throws_after_any_broadcast c config w :
  reachable env w ->
  broadcastQueue (dal w) <> [] ->
  construct_fails env c (globalData (dal w)) (effective_config env c config (dal w))
  = None ->
  addPlugin env (VClass c) config w =
  (Throw TypeError,
   mkWorld (push_plugin (admitted_plugin env c config w) (dal w)) (S (allocated w))
     (clock_reads w) (console w) (handled w)).
Proof.
  intros Hreach Hq Hnew.
  destruct (reachable_wellformed w Hreach) as (Hh & Hcfg & _).
  now apply addPlugin_replay_throws.
Qed.

End Reachable.

(** ** The claims *)

(** C1 fails on the code.  One broadcast is made on a fresh datalayer.
    [addPlugin] then throws a [TypeError] from its catch-up loop and the
    plugin's handler is never called; likewise [initialize] with that plugin
    throws, the plugin receives neither ['x'] nor ['initialize'], and the
    datalayer stays uninitialised with its readiness promise pending. *)
Theorem addPlugin_after_broadcast_throws :
  let w1 := snd (broadcast Fixture.env Fixture.event_x Fixture.payload_a1 Fixture.w0) in
  let r := addPlugin Fixture.env Fixture.MockPlugin VUndef w1 in
  let options :=
    VObj [("data", Fixture.globalDataMock);
          ("plugins", VArr [VObj [("type", Fixture.MockPlugin);
                                  ("rule", VBool true)]])] in
  let r' := initialize Fixture.env options w1 in
  broadcastQueue (dal w1) = [(Fixture.event_x, Fixture.payload_a1)]
  /\ fst r = Throw TypeError
  /\ plugins (dal (snd r)) = [Fixture.mock 0]
  /\ handled (snd r) = []
  /\ fst r' = Throw TypeError
  /\ plugins (dal (snd r')) = [Fixture.mock 0]
  /\ handled (snd r') = []
  /\ initialized (dal (snd r')) = false
  /\ readyPromise (dal (snd r')) = Pending.
Proof. repeat split. Qed.

(** C2, as the code has it: [broadcast] first calls the handler of every
    registered plugin that has one, once each and in registration order,
    and appends the event to [broadcastQueue] only after the last handler
    has returned.  When a handler throws, the plugins after it are not
    called and the event is not recorded: the datalayer object is left as
    it was.  The calls made are [deliveries], whose receivers are the
    registered plugins with a [handleEvent], each once and in order. *)
Theorem broadcast_delivers_then_records env name data w :
  ((forall p ts, In p (plugins (dal w)) ->
                 handleEvent_fails env p name data ts = None) ->
   broadcast env name data w =
   (Ok tt,
    mkWorld (push_event (name, data) (dal w)) (allocated w)
      (clock_reads w
       + length (deliveries env (plugins (dal w)) name data (clock_reads w)))
      (console w)
      (handled w ++ deliveries env (plugins (dal w)) name data (clock_reads w))))
  /\
  (forall before p after e,
     plugins (dal w) = before ++ p :: after ->
     (forall q ts, In q before -> handleEvent_fails env q name data ts = None) ->
     has_handleEvent env p = true ->
     handleEvent_fails env p name data
       (getTime env (clock_reads w
                     + length (deliveries env before name data (clock_reads w))))
     = Some e ->
     broadcast env name data w =
     (Throw e,
      mkWorld (dal w) (allocated w)
        (S (clock_reads w
            + length (deliveries env before name data (clock_reads w))))
        (console w)
        (handled w ++ deliveries env (before ++ [p]) name data (clock_reads w))))
  /\
  (forall ps k,
     map d_plugin (deliveries env ps name data k)
     = filter (has_handleEvent env) ps).
Proof.
  split; [| split].
  - apply broadcast_ok.
  - intros before p after e. apply broadcast_fail.
  - intros ps k. apply deliveries_plugins.
Qed.

Lemma broadcast_delivers_then_records_witness :
  broadcast Fixture.env Fixture.event_x Fixture.payload_a1
    (Fixture.admitted [Fixture.MockPlugin; Fixture.BarePlugin; Fixture.MockPlugin])
  = (Ok tt,
     mkWorld
       (push_event (Fixture.event_x, Fixture.payload_a1)
          (dal (Fixture.admitted
                  [Fixture.MockPlugin; Fixture.BarePlugin; Fixture.MockPlugin])))
       3 2 []
       [mkDelivery (Fixture.mock 0) Fixture.event_x Fixture.payload_a1 1000;
        mkDelivery (Fixture.mock 2) Fixture.event_x Fixture.payload_a1 1001])
  /\
  broadcast Fixture.env Fixture.event_x Fixture.payload_a1
    (Fixture.admitted [Fixture.MockPlugin; Fixture.FailingPlugin; Fixture.MockPlugin])
  = (Throw (UserError 1),
     mkWorld
       (dal (Fixture.admitted
               [Fixture.MockPlugin; Fixture.FailingPlugin; Fixture.MockPlugin]))
       3 2 []
       [mkDelivery (Fixture.mock 0) Fixture.event_x Fixture.payload_a1 1000;
        mkDelivery (Fixture.failing 1) Fixture.event_x Fixture.payload_a1 1001]).
Proof.
  split.
  - apply (broadcast_delivers_then_records Fixture.env Fixture.event_x
                    Fixture.payload_a1
                    (Fixture.admitted
                       [Fixture.MockPlugin; Fixture.BarePlugin; Fixture.MockPlugin])).
    intros p ts [<- | [<- | [<- | []]]]; reflexivity.
  - apply (proj1 (proj2 (broadcast_delivers_then_records Fixture.env
                           Fixture.event_x Fixture.payload_a1
                           (Fixture.admitted
                              [Fixture.MockPlugin; Fixture.FailingPlugin;
                               Fixture.MockPlugin])))
             [Fixture.mock 0] (Fixture.failing 1) [Fixture.mock 2] (UserError 1)).
    + reflexivity.
    + intros q ts [<- | []]; reflexivity.
    + reflexivity.
    + reflexivity.
Defined.

(** C2 as stated fails: a plugin whose handler throws is registered, an
    event is broadcast, the handler is called and throws, and the event is
    not in the history afterwards. *)
Lemma broadcast_failed_event_not_recorded :
  let w := Fixture.admitted [Fixture.FailingPlugin] in
  let r := broadcast Fixture.env Fixture.event_x Fixture.payload_a1 w in
  broadcastQueue (dal w) = []
  /\ fst r = Throw (UserError 1)
  /\ handled (snd r)
     = [mkDelivery (Fixture.failing 0) Fixture.event_x Fixture.payload_a1 1000]
  /\ ~ In (Fixture.event_x, Fixture.payload_a1) (broadcastQueue (dal (snd r))).
Proof. repeat split. intros []. Qed.

(** C3, as the code has it: an event has no timestamp of its own.  The
    history entry appended by [broadcast] is the pair of name and payload,
    and the timestamp handed to [handleEvent] is read from the clock anew
    for each delivery: the deliveries of one broadcast go to the plugins
    that have a [handleEvent], in order, and the k-th of them carries the
    k-th clock reading taken since the broadcast began. *)
Theorem delivery_timestamp_is_clock_reading env name data w
  (Hok : forall p ts, In p (plugins (dal w)) ->
                      handleEvent_fails env p name data ts = None) :
  let w' := snd (broadcast env name data w) in
  exists ds,
    handled w' = handled w ++ ds
    /\ map d_plugin ds = filter (has_handleEvent env) (plugins (dal w))
    /\ (forall k d, nth_error ds k = Some d ->
          d_name d = name /\ d_data d = data
          /\ d_ts d = getTime env (clock_reads w + k))
    /\ broadcastQueue (dal w') = broadcastQueue (dal w) ++ [(name, data)].
Proof.
  rewrite (broadcast_ok env name data w Hok). simpl.
  exists (deliveries env (plugins (dal w)) name data (clock_reads w)).
  repeat split; try (eapply deliveries_nth; eassumption).
  apply deliveries_plugins.
Qed.

Lemma delivery_timestamp_is_clock_reading_witness :
  exists ds,
    handled (snd (broadcast Fixture.env Fixture.event_x Fixture.payload_a1
                    (Fixture.admitted [Fixture.MockPlugin; Fixture.MockPlugin])))
    = [] ++ ds
    /\ map d_plugin ds = [Fixture.mock 0; Fixture.mock 1]
    /\ (forall k d, nth_error ds k = Some d ->
          d_name d = Fixture.event_x /\ d_data d = Fixture.payload_a1
          /\ d_ts d = (1000 + Z.of_nat (0 + k))%Z)
    /\ broadcastQueue
         (dal (snd (broadcast Fixture.env Fixture.event_x Fixture.payload_a1
                      (Fixture.admitted [Fixture.MockPlugin; Fixture.MockPlugin]))))
       = [] ++ [(Fixture.event_x, Fixture.payload_a1)].
Proof.
  apply (delivery_timestamp_is_clock_reading Fixture.env Fixture.event_x
           Fixture.payload_a1
           (Fixture.admitted [Fixture.MockPlugin; Fixture.MockPlugin])).
  intros p ts [<- | [<- | []]]; reflexivity.
Defined.

(** C3 as stated fails: one broadcast reaches two plugins with two
    different timestamps. *)
Lemma one_broadcast_two_timestamps :
  let w := Fixture.admitted [Fixture.MockPlugin; Fixture.MockPlugin] in
  let r := broadcast Fixture.env Fixture.event_x Fixture.payload_a1 w in
  fst r = Ok tt
  /\ handled (snd r)
     = [mkDelivery (Fixture.mock 0) Fixture.event_x Fixture.payload_a1 1000;
        mkDelivery (Fixture.mock 1) Fixture.event_x Fixture.payload_a1 1001]
  /\ ~ (forall d1 d2, In d1 (handled (snd r)) -> In d2 (handled (snd r)) ->
          d_name d1 = d_name d2 -> d_data d1 = d_data d2 -> d_ts d1 = d_ts d2).
Proof.
  repeat split. intros H.
  specialize (H (mkDelivery (Fixture.mock 0) Fixture.event_x Fixture.payload_a1 1000)
                (mkDelivery (Fixture.mock 1) Fixture.event_x Fixture.payload_a1 1001)).
  simpl in H. discriminate H; auto.
Qed.

(** C4: once a call of [initialize] has returned, any further call,
    whatever its argument, returns false and writes a warning to the
    console, and changes nothing else: the datalayer object with its
    plugin list is the same, no object is created, no handler is called
    and nothing is thrown, so neither validation nor admission runs
    again. *)
Theorem initialize_twice env first second w v w1
  (Hfirst : initialize env first w = (Ok v, w1)) :
  initialize env second w1 =
  (Ok (VBool false),
   mkWorld (dal w1) (allocated w1) (clock_reads w1)
     (console w1 ++ ["already initialized"]) (handled w1)).
Proof.
  apply initialize_again.
  destruct (initialized (dal w)) eqn:Hinit.
  - rewrite (initialize_again env first w Hinit) in Hfirst.
    injection Hfirst as _ <-. exact Hinit.
  - now apply (initialize_ok_inv env first w v w1 Hinit).
Qed.

Lemma initialize_twice_witness :
  initialize Fixture.env VUndef
    (snd (initialize Fixture.env Fixture.options_three Fixture.w0)) =
  (Ok (VBool false),
   mkWorld (dal (snd (initialize Fixture.env Fixture.options_three Fixture.w0)))
     2 1 ["already initialized"]
     [mkDelivery (Fixture.mock 0) (VStr "initialize") Fixture.globalDataMock 1000]).
Proof.
  assert (Hfirst : initialize Fixture.env Fixture.options_three Fixture.w0 =
                   (Ok VUndef,
                    snd (initialize Fixture.env Fixture.options_three Fixture.w0)))
    by (vm_compute; reflexivity).
  pose proof (initialize_twice Fixture.env Fixture.options_three VUndef
                Fixture.w0 VUndef _ Hfirst) as W.
  vm_compute in W |- *. exact W.
Defined.

(** C5: [initialize] validates the supplied data (after the markup scan)
    in the order page, site, user.  It throws the page-data error unless
    [data.page.type] and [data.page.name] are both truthy; otherwise the
    site-data error unless [data.site.id] is truthy; otherwise the
    user-data error unless [data.user] is truthy.  The first failing check
    decides the error, whatever the later ones would say; with all three
    passing the call goes on to the plugin loop. *)
Theorem initialize_validates_in_order env options w
  (Hinit : initialized (dal w) = false) (Hobj : is_object options) :
  let data := supplied_data env options in
  (page_ok env data = false ->
   fst (initialize env options w) = Throw page_error)
  /\ (page_ok env data = true -> site_ok env data = false ->
      fst (initialize env options w) = Throw site_error)
  /\ (page_ok env data = true -> site_ok env data = true ->
      user_ok env data = false ->
      fst (initialize env options w) = Throw user_error)
  /\ (page_ok env data = true -> site_ok env data = true ->
      user_ok env data = true ->
      initialize env options w =
      after_validation env (or_else (get env options "plugins") (VArr []))
        (prepared env options w)).
Proof.
  rewrite (initialize_validation env options w Hinit Hobj). simpl.
  repeat split; intros;
    repeat match goal with H : _ = _ |- _ => rewrite H; clear H end;
    reflexivity.
Qed.

Lemma initialize_validates_in_order_witness :
  fst (initialize Fixture.env (VObj [("data", VObj [("page", VObj [])])]) Fixture.w0)
  = Throw page_error
  /\ fst (initialize Fixture.env
            (VObj [("data", VObj [("page", get Fixture.env Fixture.globalDataMock "page")])])
            Fixture.w0)
     = Throw site_error
  /\ fst (initialize Fixture.env
            (VObj [("data",
                    VObj [("page", get Fixture.env Fixture.globalDataMock "page");
                          ("site", get Fixture.env Fixture.globalDataMock "site")])])
            Fixture.w0)
     = Throw user_error
  /\ initialize Fixture.env (VObj [("data", Fixture.globalDataMock)]) Fixture.w0
     = after_validation Fixture.env (VArr [])
         (prepared Fixture.env (VObj [("data", Fixture.globalDataMock)]) Fixture.w0).
Proof.
  split; [| split; [| split]].
  - apply (initialize_validates_in_order Fixture.env
             (VObj [("data", VObj [("page", VObj [])])]) Fixture.w0);
      try reflexivity; split; discriminate.
  - apply (initialize_validates_in_order Fixture.env
             (VObj [("data", VObj [("page", get Fixture.env Fixture.globalDataMock "page")])])
             Fixture.w0);
      try reflexivity; split; discriminate.
  - apply (initialize_validates_in_order Fixture.env
             (VObj [("data",
                     VObj [("page", get Fixture.env Fixture.globalDataMock "page");
                           ("site", get Fixture.env Fixture.globalDataMock "site")])])
             Fixture.w0);
      try reflexivity; split; discriminate.
  - apply (initialize_validates_in_order Fixture.env
             (VObj [("data", Fixture.globalDataMock)]) Fixture.w0);
      try reflexivity; split; discriminate.
Defined.

(** C6, as the code has it: when validation fails the error is thrown
    with config and data already stored.  The datalayer stays
    uninitialised; plugin list, history, readiness promise and everything
    around the datalayer are as before the call; [globalData] and
    [globalConfig] hold what the failed call supplied.  Because every call
    stores both before it reads either, a retry with an options object
    runs exactly as it would have on the untouched datalayer.  No call on
    the datalayer ever rejects the readiness promise. *)
Theorem initialize_validation_failure env options w
  (Hinit : initialized (dal w) = false) (Hobj : is_object options)
  (Hbad : page_ok env (supplied_data env options)
          && site_ok env (supplied_data env options)
          && user_ok env (supplied_data env options) = false) :
  let r := initialize env options w in
  (fst r = Throw page_error \/ fst r = Throw site_error
   \/ fst r = Throw user_error)
  /\ snd r = prepared env options w
  /\ initialized (dal (snd r)) = false
  /\ plugins (dal (snd r)) = plugins (dal w)
  /\ broadcastQueue (dal (snd r)) = broadcastQueue (dal w)
  /\ readyPromise (dal (snd r)) = readyPromise (dal w)
  /\ globalData (dal (snd r)) = supplied_data env options
  /\ globalConfig (dal (snd r)) = supplied_config env options
  /\ (forall retry, is_object retry ->
        initialize env retry (snd r) = initialize env retry w)
  /\ (forall c w0, readyPromise (dal w0) <> Rejected ->
        readyPromise (dal (run_call env c w0)) <> Rejected).
Proof.
  cbv zeta.
  assert (Hsnd : snd (initialize env options w) = prepared env options w).
  { rewrite (initialize_validation env options w Hinit Hobj). cbv zeta.
    destruct (page_ok env _); [| reflexivity].
    destruct (site_ok env _); [| reflexivity].
    destruct (user_ok env _); [discriminate Hbad | reflexivity]. }
  split.
  { rewrite (initialize_validation env options w Hinit Hobj). cbv zeta.
    destruct (page_ok env _); [| now left].
    destruct (site_ok env _); [| now right; left].
    destruct (user_ok env _); [discriminate Hbad | now right; right]. }
  rewrite Hsnd. repeat split; try assumption.
  - intros retry Hretry.
    rewrite (initialize_validation env retry w Hinit Hretry).
    rewrite (initialize_validation env retry (prepared env options w)
               Hinit Hretry).
    reflexivity.
  - apply run_call_never_rejects.
Qed.

Lemma initialize_validation_failure_witness :
  let options := VObj [("data", VObj [("page", VObj [])]);
                       ("config", VObj [("a", VNum 1)])] in
  let r := initialize Fixture.env options Fixture.w0 in
  (fst r = Throw page_error \/ fst r = Throw site_error
   \/ fst r = Throw user_error)
  /\ snd r = prepared Fixture.env options Fixture.w0
  /\ initialized (dal (snd r)) = false
  /\ plugins (dal (snd r)) = []
  /\ broadcastQueue (dal (snd r)) = []
  /\ readyPromise (dal (snd r)) = Pending
  /\ globalData (dal (snd r)) = VObj [("page", VObj [])]
  /\ globalConfig (dal (snd r)) = VObj [("a", VNum 1)]
  /\ (forall retry, is_object retry ->
        initialize Fixture.env retry (snd r)
        = initialize Fixture.env retry Fixture.w0)
  /\ (forall c w0, readyPromise (dal w0) <> Rejected ->
        readyPromise (dal (run_call Fixture.env c w0)) <> Rejected).
Proof.
  apply (initialize_validation_failure Fixture.env
           (VObj [("data", VObj [("page", VObj [])]);
                  ("config", VObj [("a", VNum 1)])]) Fixture.w0).
  - reflexivity.
  - split; discriminate.
  - reflexivity.
Defined.

(** C6 as stated fails: after a call that fails validation, global data
    and global config are no longer what they were before the call. *)
Lemma failed_initialize_overwrites_data :
  let options := VObj [("data", VObj [("page", VObj [])]);
                       ("config", VObj [("a", VNum 1)])] in
  let r := initialize Fixture.env options Fixture.w0 in
  fst r = Throw page_error
  /\ globalData (dal Fixture.w0) = VObj []
  /\ globalData (dal (snd r)) = VObj [("page", VObj [])]
  /\ globalConfig (dal Fixture.w0) = VObj []
  /\ globalConfig (dal (snd r)) = VObj [("a", VNum 1)]
  /\ globalData (dal (snd r)) <> globalData (dal Fixture.w0)
  /\ globalConfig (dal (snd r)) <> globalConfig (dal Fixture.w0).
Proof. repeat split; discriminate. Qed.

(** C7: [validateRule] computes the [evaluate] of the specification on
    every value that stands for a load rule, reading the data and the
    test-mode flag from the datalayer and changing nothing: a boolean is
    returned as it is, a function is applied to the global data, and a
    record [{rule, test}] yields [rule(data)] when [test] is omitted or
    false or when [test] is true in test mode, and false otherwise.  The
    three sample evaluations follow. *)
Theorem validateRule_refines_evaluate env w :
  (forall rule v, represents rule v ->
     validateRule env v w =
     (evaluate env rule (globalData (dal w)) (testModeActive (dal w)), w))
  /\ (testModeActive (dal w) = false ->
      validateRule env (VBool true) w = (Ok (VBool true), w))
  /\ (forall f, call env f (globalData (dal w)) = Ok (VBool true) ->
      testModeActive (dal w) = false ->
      validateRule env (VObj [("rule", VFun f); ("test", VBool true)]) w
      = (Ok (VBool false), w))
  /\ (forall f, call env f (globalData (dal w)) = Ok (VBool true) ->
      testModeActive (dal w) = true ->
      validateRule env (VObj [("rule", VFun f); ("test", VBool true)]) w
      = (Ok (VBool true), w)).
Proof.
  assert (Hgen : forall rule v, represents rule v ->
     validateRule env v w =
     (evaluate env rule (globalData (dal w)) (testModeActive (dal w)), w)).
  { intros rule v Hrep. destruct Hrep as [b | f | f fs Hr Ht | f b fs Hr Ht].
    - reflexivity.
    - reflexivity.
    - rewrite validateRule_record; try (split; discriminate); try discriminate.
      simpl. rewrite Hr, Ht. reflexivity.
    - rewrite validateRule_record; try (split; discriminate); try discriminate.
      simpl. rewrite Hr, Ht.
      destruct b; [destruct (testModeActive (dal w)) |]; reflexivity. }
  split; [exact Hgen |]. split; [| split].
  - intros _. apply (Hgen (RBool true)). constructor.
  - intros f Hf Htm.
    rewrite (Hgen (RStruct f (Some true))) by (now constructor).
    simpl. now rewrite Htm.
  - intros f Hf Htm.
    rewrite (Hgen (RStruct f (Some true))) by (now constructor).
    simpl. now rewrite Htm, Hf.
Qed.

Lemma validateRule_refines_evaluate_witness :
  validateRule Fixture.env (VObj [("test", VBool false); ("rule", VFun 1)]) Fixture.w0
  = (Ok (VBool false), Fixture.w0)
  /\ validateRule Fixture.env (VBool true) Fixture.w0
     = (Ok (VBool true), Fixture.w0)
  /\ validateRule Fixture.env (VObj [("rule", VFun 0); ("test", VBool true)])
       Fixture.w0
     = (Ok (VBool false), Fixture.w0)
  /\ validateRule Fixture.env (VObj [("rule", VFun 0); ("test", VBool true)])
       (Fixture.w_test)
     = (Ok (VBool true), Fixture.w_test).
Proof.
  destruct (validateRule_refines_evaluate Fixture.env Fixture.w0)
    as (H1 & H2 & H3 & _).
  destruct (validateRule_refines_evaluate Fixture.env Fixture.w_test)
    as (_ & _ & _ & H4).
  split; [| split; [| split]].
  - apply (H1 (RStruct 1 (Some false))). now constructor.
  - now apply H2.
  - now apply H3.
  - now apply H4.
Defined.

(** C8, as the code has it: rule evaluation is not total.  For a rule that
    is neither a boolean, nor a function, nor a record with a callable
    [rule] field, [validateRule] throws a [TypeError] when the rule is
    [undefined], [null] or a class, and when its [test] field is falsy or
    is [true] in test mode; in the remaining case (a truthy [test] that is
    not [true], or [true] outside test mode) it returns false.  Nothing is
    written to the console in either case. *)
Theorem validateRule_malformed env rule w (Hbad : malformed env rule = true) :
  validateRule env rule w =
  (match rule with
   | VUndef | VNull | VClass _ => Throw TypeError
   | _ => if gate_open (get env rule "test") (testModeActive (dal w))
          then Throw TypeError
          else Ok (VBool false)
   end, w).
Proof.
  destruct rule; try discriminate Hbad; try reflexivity;
    (rewrite validateRule_record; try (split; discriminate); try discriminate;
     destruct (gate_open _ _); [| reflexivity];
     unfold malformed in Hbad;
     destruct (get env _ "rule"); try discriminate Hbad; reflexivity).
Qed.

Lemma validateRule_malformed_witness :
  validateRule Fixture.env (VObj [("test", VNum 1)]) Fixture.w0
  = (Ok (VBool false), Fixture.w0)
  /\ validateRule Fixture.env (VObj [("rule", VStr "yes")]) Fixture.w0
     = (Throw TypeError, Fixture.w0).
Proof.
  split.
  - apply (validateRule_malformed Fixture.env (VObj [("test", VNum 1)]) Fixture.w0).
    reflexivity.
  - apply (validateRule_malformed Fixture.env (VObj [("rule", VStr "yes")])
             Fixture.w0).
    reflexivity.
Defined.

(** C8 as stated fails: on [null], [undefined], a number and the empty
    object [validateRule] throws instead of returning false, and no warning
    is written. *)
Lemma validateRule_crashes_on_malformed :
  Forall (fun rule =>
            malformed Fixture.env rule = true
            /\ validateRule Fixture.env rule Fixture.w0
               = (Throw TypeError, Fixture.w0))
    [VNull; VUndef; VNum 5; VObj []]
  /\ console Fixture.w0 = [].
Proof. split; [repeat constructor | reflexivity]. Qed.

(** C9, as the code has it.  Subscribing: on the event queue of the
    specification, [subscribe] of an entity without [handleEvent] fails
    at once with [InvalidSubscriberError] and leaves the queue as it was,
    so every later broadcast goes to the other subscribers exactly as
    before.  Admitting: [addPlugin] does not look for [handleEvent] and
    never raises that error.  The instance of a class whose constructor
    returns is in every case constructed and appended to the plugin list,
    with no handler called; the call returns normally when no broadcast
    has been recorded, and otherwise ends as its catch-up loop ends,
    normally or with a [TypeError].  Afterwards every broadcast passes the
    plugin over, and the other plugins are served exactly as if it were
    not registered. *)
Theorem addPlugin_without_handleEvent env c config w
  (Hcap : has_handleEvent env (admitted_plugin env c config w) = false)
  (Hcfg : is_object (globalConfig (dal w)))
  (Hnew : construct_fails env c (globalData (dal w))
            (effective_config env c config (dal w)) = None) :
  (forall subscriber replayHistory st,
     has_handleEvent env subscriber = false ->
     EventQueue.subscribe env subscriber replayHistory st
     = (Throw EventQueue.InvalidSubscriberError, st)
     /\ forall n p,
          EventQueue.broadcastEvent env n p
            (snd (EventQueue.subscribe env subscriber replayHistory st))
          = EventQueue.broadcastEvent env n p st)
  /\ snd (addPlugin env (VClass c) config w)
     = mkWorld (push_plugin (admitted_plugin env c config w) (dal w))
         (S (allocated w)) (clock_reads w) (console w) (handled w)
  /\ (fst (addPlugin env (VClass c) config w) = Ok tt
      \/ fst (addPlugin env (VClass c) config w) = Throw TypeError)
  /\ fst (addPlugin env (VClass c) config w)
     <> Throw EventQueue.InvalidSubscriberError
  /\ (broadcastQueue (dal w) = [] ->
      addPlugin env (VClass c) config w =
      (Ok tt,
       mkWorld (push_plugin (admitted_plugin env c config w) (dal w))
         (S (allocated w)) (clock_reads w) (console w) (handled w)))
  /\ forall before after name data w0,
       broadcast env name data
         (with_plugins (before ++ admitted_plugin env c config w :: after) w0) =
       let r := broadcast env name data (with_plugins (before ++ after) w0) in
       (fst r,
        with_plugins (before ++ admitted_plugin env c config w :: after) (snd r)).
Proof.
  destruct (addPlugin_incapable env c config w Hcap Hcfg Hnew) as [Hw Hr].
  split; [| split; [exact Hw | split; [exact Hr | split; [| split]]]].
  - intros subscriber replayHistory st Hsub.
    unfold EventQueue.subscribe. rewrite Hsub. split; reflexivity.
  - destruct Hr as [-> | ->]; discriminate.
  - intros Hq. now apply addPlugin_empty_queue.
  - intros. now apply broadcast_skips_incapable.
Qed.

Lemma addPlugin_without_handleEvent_witness :
  let st := EventQueue.mkState
              (EventQueue.mkQueue
                 [EventQueue.mkEvent Fixture.event_x Fixture.payload_a1 1000]
                 [Fixture.mock 0])
              1 [mkDelivery (Fixture.mock 0) Fixture.event_x Fixture.payload_a1 1000] in
  EventQueue.subscribe Fixture.env (Fixture.bare 1) true st
  = (Throw EventQueue.InvalidSubscriberError, st)
  /\ EventQueue.broadcastEvent Fixture.env (VStr "y") VNull
       (snd (EventQueue.subscribe Fixture.env (Fixture.bare 1) true st))
     = EventQueue.broadcastEvent Fixture.env (VStr "y") VNull st
  /\ addPlugin Fixture.env Fixture.BarePlugin VUndef
       (Fixture.admitted [Fixture.MockPlugin]) =
     (Ok tt,
      mkWorld (push_plugin (Fixture.bare 1) (dal (Fixture.admitted [Fixture.MockPlugin])))
        2 0 [] [])
  /\ broadcast Fixture.env Fixture.event_x Fixture.payload_a1
       (with_plugins ([Fixture.mock 0] ++ Fixture.bare 1 :: [Fixture.mock 2])
          Fixture.w0) =
     let r := broadcast Fixture.env Fixture.event_x Fixture.payload_a1
                (with_plugins ([Fixture.mock 0] ++ [Fixture.mock 2]) Fixture.w0) in
     (fst r,
      with_plugins ([Fixture.mock 0] ++ Fixture.bare 1 :: [Fixture.mock 2]) (snd r)).
Proof.
  intros st.
  destruct (addPlugin_without_handleEvent Fixture.env 1 VUndef
              (Fixture.admitted [Fixture.MockPlugin]))
    as (Hsub & _ & _ & _ & Hadmit & Hskip).
  - reflexivity.
  - split; discriminate.
  - reflexivity.
  - destruct (Hsub (Fixture.bare 1) true st eq_refl) as [Hs Hb].
    split; [exact Hs |]. split; [exact (Hb (VStr "y") VNull) |].
    split.
    + exact (Hadmit eq_refl).
    + exact (Hskip [Fixture.mock 0] [Fixture.mock 2] Fixture.event_x
               Fixture.payload_a1 Fixture.w0).
Defined.

(** C9 as stated fails: admitting a class whose instances have no
    [handleEvent] does not throw; the instance is in the plugin list. *)
Lemma addPlugin_accepts_incapable :
  has_handleEvent Fixture.env (Fixture.bare 0) = false
  /\ addPlugin Fixture.env Fixture.BarePlugin VUndef Fixture.w0 =
     (Ok tt, with_plugins [Fixture.bare 0]
               (mkWorld (dal Fixture.w0) 1 0 [] [])).
Proof. split; reflexivity. Qed.

(** C10: a first call of [initialize] that completes returns [undefined],
    not [true]: it leaves through the bare [return] that follows the
    resolution of the readiness promise, with the ready flag set. *)
Theorem initialize_returns_undefined env options w v w'
  (Hinit : initialized (dal w) = false)
  (Hok : initialize env options w = (Ok v, w')) :
  v = VUndef /\ v <> VBool true
  /\ initialized (dal w') = true /\ readyPromise (dal w') <> Pending.
Proof.
  destruct (initialize_ok_inv env options w v w' Hinit Hok) as (-> & Hi & Hr).
  repeat split; try assumption. discriminate.
Qed.

Lemma initialize_returns_undefined_witness :
  VUndef = VUndef /\ VUndef <> VBool true
  /\ initialized
       (dal (snd (initialize Fixture.env Fixture.options_three Fixture.w0))) = true
  /\ readyPromise
       (dal (snd (initialize Fixture.env Fixture.options_three Fixture.w0)))
     <> Pending.
Proof.
  assert (Hok : initialize Fixture.env Fixture.options_three Fixture.w0 =
                (Ok VUndef,
                 snd (initialize Fixture.env Fixture.options_three Fixture.w0)))
    by (vm_compute; reflexivity).
  exact (initialize_returns_undefined Fixture.env Fixture.options_three
           Fixture.w0 VUndef _ eq_refl Hok).
Defined.

(** ** Further properties *)

(** *** Test mode *)

(** X1: [isTestModeActive] leaves the [__odltest__] cookie set exactly
    when it returns true.  Hence a later page load whose URL names neither
    switch finds the same flag: test mode, once switched on or off through
    the URL, stays so across reloads. *)
Theorem testmode_flag_persists b :
  fst (isTestModeActive b) = cookie_set (snd (isTestModeActive b))
  /\ forall search,
       matches_ci "__odltest__=0" search = false ->
       matches_ci "__odltest__=1" search = false ->
       isTestModeActive
         (mkBrowser (cookie_odltest (snd (isTestModeActive b))) search)
       = (fst (isTestModeActive b),
          mkBrowser (cookie_odltest (snd (isTestModeActive b))) search).
Proof.
  assert (H : fst (isTestModeActive b) = cookie_set (snd (isTestModeActive b))).
  { unfold isTestModeActive, cookie_set.
    destruct (cookie_odltest b) as [[| ch rest] |] eqn:Hc;
      match goal with
      | |- context [if ?c then _ else _] => destruct c
      end; simpl; try rewrite Hc; reflexivity. }
  split; [exact H |].
  intros search H0 H1. rewrite H.
  unfold isTestModeActive at 1, cookie_set. simpl.
  rewrite H0, H1.
  destruct (cookie_odltest (snd (isTestModeActive b))) as [[| ch rest] |];
    reflexivity.
Qed.

Lemma testmode_flag_persists_witness :
  let b1 := snd (isTestModeActive (mkBrowser None "?__odltest__=1")) in
  let b2 := snd (isTestModeActive (mkBrowser (cookie_odltest b1) "")) in
  let b3 := snd (isTestModeActive (mkBrowser (cookie_odltest b2) "?__odltest__=0")) in
  isTestModeActive (mkBrowser (cookie_odltest b1) "")
  = (true, mkBrowser (Some "1") "")
  /\ isTestModeActive (mkBrowser (cookie_odltest b3) "")
     = (false, mkBrowser None "").
Proof.
  split.
  - apply (testmode_flag_persists (mkBrowser None "?__odltest__=1"));
      reflexivity.
  - apply (testmode_flag_persists
             (mkBrowser (Some "1") "?__odltest__=0")); reflexivity.
Defined.

(** *** Lookup by id *)

(** X2: before initialisation [getPluginById] throws.  On an initialised
    datalayer it changes nothing and returns the first plugin, in order of
    registration, whose class returns the id asked for, [null] when no
    registered plugin does; so every registered plugin's own id finds a
    plugin with that id, and of two plugins with one id only the earlier
    is ever returned. *)
Theorem getPluginById_first_match env pluginId w :
  (initialized (dal w) = false ->
   getPluginById env pluginId w =
   (Throw (Err ".getPluginById called before .initialize (always wrap in whenReady())"),
    w))
  /\ (initialized (dal w) = true ->
      exists r, getPluginById env pluginId w = (Ok r, w)
        /\ match r with
           | Some p =>
               exists before after,
                 plugins (dal w) = before ++ p :: after
                 /\ pluginId = VStr (getID env (p_class p))
                 /\ forall q, In q before ->
                      VStr (getID env (p_class q)) <> pluginId
           | None =>
               forall q, In q (plugins (dal w)) ->
                 VStr (getID env (p_class q)) <> pluginId
           end)
  /\ (initialized (dal w) = true ->
      forall q, In q (plugins (dal w)) ->
      exists p, getPluginById env (VStr (getID env (p_class q))) w = (Ok (Some p), w)
                /\ getID env (p_class p) = getID env (p_class q)).
Proof.
  assert (Hfound : initialized (dal w) = true ->
      exists r, getPluginById env pluginId w = (Ok r, w)
        /\ match r with
           | Some p =>
               exists before after,
                 plugins (dal w) = before ++ p :: after
                 /\ pluginId = VStr (getID env (p_class p))
                 /\ forall q, In q before ->
                      VStr (getID env (p_class q)) <> pluginId
           | None =>
               forall q, In q (plugins (dal w)) ->
                 VStr (getID env (p_class q)) <> pluginId
           end).
  { intros Hinit. unfold getPluginById, bind, this. rewrite Hinit.
    unfold ret. eexists. split; [reflexivity |].
    induction (plugins (dal w)) as [| p ps IH].
    - intros q [].
    - destruct pluginId;
        try (destruct ((fix scan (ps0 : list Plugin) : option Plugin := _) ps)
               as [p' |];
             [ destruct IH as (before & after & -> & Hid & Hbefore);
               discriminate Hid
             | intros q [<- | Hq]; [discriminate | now apply IH] ]).
      destruct (String.eqb_spec (getID env (p_class p)) s) as [-> | Hne].
      + exists [], ps. repeat split. intros q [].
      + destruct ((fix scan (ps0 : list Plugin) : option Plugin := _) ps)
          as [p' |].
        * destruct IH as (before & after & -> & Hid & Hbefore).
          exists (p :: before), after. repeat split; [exact Hid |].
          intros q [<- | Hq]; [congruence | now apply Hbefore].
        * intros q [<- | Hq]; [congruence | now apply IH]. }
  split; [| split].
  - intros Hinit. unfold getPluginById, bind, this. now rewrite Hinit.
  - exact Hfound.
  - intros Hinit q Hq. clear Hfound.
    unfold getPluginById, bind, this. rewrite Hinit. unfold ret.
    induction (plugins (dal w)) as [| p ps IH]; [destruct Hq |].
    destruct (String.eqb_spec (getID env (p_class p)) (getID env (p_class q)))
      as [Heq | Hne].
    + exists p. split; [reflexivity | exact Heq].
    + destruct Hq as [-> | Hq]; [congruence | now apply IH].
Qed.

Lemma getPluginById_first_match_witness :
  getPluginById Fixture.env (VStr "test/bare") Fixture.w0 =
  (Throw (Err ".getPluginById called before .initialize (always wrap in whenReady())"),
   Fixture.w0)
  /\ (exists r, getPluginById Fixture.env (VStr "test/bare") Fixture.ready = (Ok r, Fixture.ready)
        /\ match r with
           | Some p =>
               exists before after,
                 plugins (dal Fixture.ready) = before ++ p :: after
                 /\ VStr "test/bare" = VStr (getID Fixture.env (p_class p))
                 /\ forall q, In q before ->
                      VStr (getID Fixture.env (p_class q)) <> VStr "test/bare"
           | None =>
               forall q, In q (plugins (dal Fixture.ready)) ->
                 VStr (getID Fixture.env (p_class q)) <> VStr "test/bare"
           end)
  /\ (exists p, getPluginById Fixture.env
                  (VStr (getID Fixture.env (p_class (Fixture.mock 0)))) Fixture.ready
                = (Ok (Some p), Fixture.ready)
                /\ getID Fixture.env (p_class p)
                   = getID Fixture.env (p_class (Fixture.mock 0))).
Proof.
  split; [| split].
  - apply (proj1 (getPluginById_first_match Fixture.env (VStr "test/bare")
                    Fixture.w0)).
    reflexivity.
  - apply (proj1 (proj2 (getPluginById_first_match Fixture.env (VStr "test/bare")
                           Fixture.ready))).
    vm_compute; reflexivity.
  - apply (proj2 (proj2 (getPluginById_first_match Fixture.env (VStr "test/bare")
                           Fixture.ready))).
    + vm_compute; reflexivity.
    + vm_compute. left. reflexivity.
Defined.

(** *** Admission *)

Section Candidates.

Variable env : Env.

Lemma prop_ok_inv v k w x w' :
  prop env v k w = (Ok x, w') -> x = get env v k /\ w' = w.
Proof.
  destruct v; unfold prop, ret, throw; intros H;
    try discriminate H; injection H as <- <-; auto.
Qed.

(** [validateRule] reads the global data and the test-mode flag and
    nothing else. *)
Lemma validateRule_reads rule w w' :
  globalData (dal w) = globalData (dal w') ->
  testModeActive (dal w) = testModeActive (dal w') ->
  fst (validateRule env rule w) = fst (validateRule env rule w').
Proof.
  intros Hd Ht. unfold validateRule, bind at 1 3, this. rewrite Hd, Ht.
  destruct rule; try reflexivity;
    try (unfold invoke, lift; reflexivity);
    unfold bind, prop, ret, throw;
    match goal with
    | |- context [if ?c then _ else _] => destruct c
    end; try reflexivity;
    match goal with
    | |- context [invoke env ?r] => destruct r
    end; reflexivity.
Qed.

Lemma validateRule_ok_inv rule w r w' :
  validateRule env rule w = (Ok r, w') ->
  w' = w /\ accepted env (dal w) (VObj [("rule", rule)]) = truthy r.
Proof.
  intros H. pose proof (validateRule_pure env rule w) as Hp.
  rewrite H in Hp. simpl in Hp. subst w'. split; [reflexivity |].
  unfold accepted. simpl.
  rewrite (validateRule_reads rule (mkWorld (dal w) 0 0 [] []) w eq_refl eq_refl).
  now rewrite H.
Qed.

Lemma accepted_ext d d' o :
  globalData d = globalData d' -> testModeActive d = testModeActive d' ->
  accepted env d o = accepted env d' o.
Proof.
  intros Hd Ht. unfold accepted.
  now rewrite (validateRule_reads _ (mkWorld d 0 0 [] []) (mkWorld d' 0 0 [] [])).
Qed.

Lemma admissions_ext d d' items oid :
  globalData d = globalData d' -> globalConfig d = globalConfig d' ->
  testModeActive d = testModeActive d' ->
  admissions env d items oid = admissions env d' items oid.
Proof.
  intros Hd Hc Ht. revert oid; induction items as [| o rest IH]; intros oid;
    simpl; [reflexivity |].
  rewrite (accepted_ext d d' o Hd Ht).
  destruct (accepted env d' o); [| apply IH].
  destruct (get env o "type"); try apply IH.
  unfold effective_config. rewrite Hc. f_equal. apply IH.
Qed.

(** Something that is not a class is turned away before anything is
    registered. *)
Lemma addPlugin_non_class pluginClass config w :
  (forall c, pluginClass <> VClass c) ->
  exists e, addPlugin env pluginClass config w = (Throw e, w).
Proof.
  intros Hno. unfold addPlugin.
  destruct pluginClass;
    try (exfalso; eapply Hno; reflexivity);
    try (exists TypeError; reflexivity).
  - (* a record that may carry a [getID] of its own *)
    unfold bind, prop, ret. simpl.
    destruct (assoc "getID" fields); try (exists TypeError; reflexivity).
    unfold invoke, lift. destruct (call env f VUndef) as [x | e].
    + exists TypeError; reflexivity.
    + exists e; reflexivity.
Qed.

Lemma addPlugin_ok_inv pluginClass config w w' :
  addPlugin env pluginClass config w = (Ok tt, w') ->
  broadcastQueue (dal w) = [] ->
  exists c, pluginClass = VClass c
    /\ w' = mkWorld (push_plugin (admitted_plugin env c config w) (dal w))
              (S (allocated w)) (clock_reads w) (console w) (handled w).
Proof.
  intros H Hq.
  destruct pluginClass as [| | b | n | s | items | fields | f | c];
    try (match type of H with
         | addPlugin env ?v _ _ = _ =>
             destruct (addPlugin_non_class v config w) as [e He];
             [ intros c'; discriminate | rewrite He in H; discriminate H ]
         end).
  exists c. split; [reflexivity |].
  unfold addPlugin in H. apply bind_ok_inv in H as (d & w1 & Hthis & H).
  injection Hthis as <- <-.
  apply bind_ok_inv in H as (cfg0 & w1 & Hp & H).
  apply prop_ok_inv in Hp as [-> ->].
  destruct (construct_fails env c _ _); [discriminate H |].
  rewrite Hq in H. simpl in H. unfold bind, new_oid, update, ret in H.
  simpl in H. injection H as <-. reflexivity.
Qed.

End Candidates.

Section AdmissionLoop.

Variable env : Env.

Lemma forEach_send_ok_inv ps name data w w' :
  forEach (fun plugin => sendEventToPlugin env (Some plugin) name data) ps w
  = (Ok tt, w') ->
  w' = mkWorld (dal w) (allocated w)
         (clock_reads w + length (deliveries env ps name data (clock_reads w)))
         (console w)
         (handled w ++ deliveries env ps name data (clock_reads w)).
Proof.
  revert w; induction ps as [| p ps IH]; intros w H; simpl in *.
  - injection H as <-. rewrite Nat.add_0_r, app_nil_r. now destruct w.
  - apply bind_ok_inv in H as ([] & w1 & Hs & H).
    rewrite sendEventToPlugin_run in Hs.
    destruct (has_handleEvent env p).
    + destruct (handleEvent_fails env p name data _); [discriminate Hs |].
      injection Hs as <-. apply IH in H. subst w'. simpl.
      f_equal; [lia | now rewrite <- app_assoc].
    + injection Hs as <-. now apply IH.
Qed.

Lemma broadcast_ok_inv name data w w' :
  broadcast env name data w = (Ok tt, w') ->
  w' = mkWorld (push_event (name, data) (dal w)) (allocated w)
         (clock_reads w
          + length (deliveries env (plugins (dal w)) name data (clock_reads w)))
         (console w)
         (handled w ++ deliveries env (plugins (dal w)) name data (clock_reads w)).
Proof.
  unfold broadcast. intros H.
  apply bind_ok_inv in H as (d & w1 & Hthis & H). injection Hthis as <- <-.
  apply bind_ok_inv in H as ([] & w1 & Hs & H).
  apply forEach_send_ok_inv in Hs. subst w1. injection H as <-. reflexivity.
Qed.

(** A plugin loop that completes on a datalayer without recorded
    broadcasts has appended the instances of the accepted candidates and
    has changed nothing else. *)
Lemma admission_loop_inv items w w' :
  forEach (admit_candidate env) items w = (Ok tt, w') ->
  broadcastQueue (dal w) = [] ->
  w' = mkWorld
         (dal (with_plugins
                 (plugins (dal w) ++ admissions env (dal w) items (allocated w)) w))
         (allocated w + length (admissions env (dal w) items (allocated w)))
         (clock_reads w) (console w) (handled w).
Proof.
  revert w; induction items as [| o rest IH]; intros w H Hq; simpl in *.
  - injection H as <-. rewrite app_nil_r, Nat.add_0_r.
    destruct w as [[] ? ? ? ?]; reflexivity.
  - apply bind_ok_inv in H as ([] & w1 & Ho & H).
    unfold admit_candidate in Ho.
    apply bind_ok_inv in Ho as (rule & wa & Hrule & Ho).
    apply prop_ok_inv in Hrule as [-> ->].
    apply bind_ok_inv in Ho as (r & wb & Hr & Ho).
    apply validateRule_ok_inv in Hr as [-> Hacc].
    assert (Hacc' : accepted env (dal w) o = truthy r).
    { rewrite <- Hacc. unfold accepted. reflexivity. }
    rewrite Hacc'. destruct (truthy r).
    + apply bind_ok_inv in Ho as (ty & wa & Hty & Ho).
      apply prop_ok_inv in Hty as [-> ->].
      apply bind_ok_inv in Ho as (cfg & wa & Hcfg & Ho).
      apply prop_ok_inv in Hcfg as [-> ->].
      apply addPlugin_ok_inv in Ho as (c & Hc & ->); [| exact Hq].
      rewrite Hc. apply IH in H; [| exact Hq]. subst w'. simpl.
      rewrite (admissions_ext env
                 (push_plugin (admitted_plugin env c (get env o "config") w) (dal w))
                 (dal w) rest (S (allocated w)) eq_refl eq_refl eq_refl).
      unfold admitted_plugin. rewrite <- app_assoc. simpl.
      f_equal. lia.
    + injection Ho as <-. now apply IH.
Qed.

End AdmissionLoop.

(** X3: [addPlugin] registers nothing when it fails before the push.  A
    value that is not a class (an instance, a plain object, [undefined])
    makes it throw, and so does a constructor that throws, whose error is
    passed on; either way the datalayer and everything around it are as
    before the call. *)
Theorem addPlugin_failure_registers_nothing env pluginClass config w :
  ((forall c, pluginClass <> VClass c) ->
   exists e, addPlugin env pluginClass config w = (Throw e, w))
  /\ (forall c e,
        pluginClass = VClass c ->
        is_object (globalConfig (dal w)) ->
        construct_fails env c (globalData (dal w))
          (effective_config env c config (dal w)) = Some e ->
        addPlugin env pluginClass config w = (Throw e, w)).
Proof.
  split.
  - apply addPlugin_non_class.
  - intros c e -> Hcfg Hnew. unfold addPlugin, bind at 1, this.
    unfold bind at 1. rewrite prop_object by assumption.
    unfold effective_config in Hnew. now rewrite Hnew.
Qed.

Lemma addPlugin_failure_registers_nothing_witness :
  (exists e, addPlugin Scenario.env (VObj [("events", VObj [])]) VUndef Fixture.w0
             = (Throw e, Fixture.w0))
  /\ addPlugin Scenario.env Scenario.BrokenPlugin VUndef Fixture.w0
     = (Throw (UserError 2), Fixture.w0).
Proof.
  split.
  - apply (addPlugin_failure_registers_nothing Scenario.env
             (VObj [("events", VObj [])]) VUndef Fixture.w0).
    intros c; discriminate.
  - apply (proj2 (addPlugin_failure_registers_nothing Scenario.env
                    Scenario.BrokenPlugin VUndef Fixture.w0) 3 (UserError 2)).
    + reflexivity.
    + split; discriminate.
    + reflexivity.
Defined.

Lemma initialize_success_world env options w v w' :
  initialized (dal w) = false ->
  broadcastQueue (dal w) = [] ->
  initialize env options w = (Ok v, w') ->
  let d1 := dal (prepared env options w) in
  let ps := plugins (dal w)
            ++ admissions env d1 (candidates env options) (allocated w) in
  plugins (dal w') = ps
  /\ allocated w'
     = allocated w + length (admissions env d1 (candidates env options) (allocated w))
  /\ handled w'
     = handled w ++ deliveries env ps (VStr "initialize")
                      (supplied_data env options) (clock_reads w)
  /\ broadcastQueue (dal w') = [(VStr "initialize", supplied_data env options)]
  /\ globalData (dal w') = supplied_data env options
  /\ globalConfig (dal w') = supplied_config env options
  /\ console w' = console w.
Proof.
  intros Hinit Hq Hok.
  assert (Hobj : is_object options).
  { destruct options; try (split; discriminate);
      unfold initialize, bind at 1, this in Hok; rewrite Hinit in Hok;
      discriminate Hok. }
  rewrite (initialize_validation env options w Hinit Hobj) in Hok.
  cbv zeta in Hok.
  destruct (page_ok env _); [| discriminate Hok].
  destruct (site_ok env _); [| discriminate Hok].
  destruct (user_ok env _); [| discriminate Hok].
  simpl in Hok. unfold after_validation in Hok.
  apply bind_ok_inv in Hok as (len & w1 & Hlen & Hok).
  apply prop_ok_inv in Hlen as [-> ->].
  apply bind_ok_inv in Hok as ([] & w2 & Hloop & Hok).
  assert (Hw2 : w2 = mkWorld
            (dal (with_plugins
                    (plugins (dal w)
                     ++ admissions env (dal (prepared env options w))
                          (candidates env options) (allocated w))
                    (prepared env options w)))
            (allocated w
             + length (admissions env (dal (prepared env options w))
                         (candidates env options) (allocated w)))
            (clock_reads w) (console w) (handled w)).
  { unfold candidates.
    destruct (or_else (get env options "plugins") (VArr [])) as
      [| | b | n | s | items | fields | f | c];
      try (match type of Hloop with
           | (if ?t then _ else _) _ = _ =>
               destruct t; [discriminate Hloop |]
           end;
           injection Hloop as <-; simpl;
           rewrite app_nil_r, Nat.add_0_r; reflexivity).
    destruct items as [| o rest].
    - simpl in Hloop. injection Hloop as <-. simpl.
      rewrite app_nil_r, Nat.add_0_r. reflexivity.
    - change (truthy (get env (VArr (o :: rest)) "length")) with true in Hloop.
      cbv iota in Hloop.
      apply (admission_loop_inv env (o :: rest) (prepared env options w) w2)
        in Hloop; [| exact Hq].
      exact Hloop. }
  apply bind_ok_inv in Hok as ([] & w3 & Hset & Hok). injection Hset as <-.
  apply bind_ok_inv in Hok as (d & w4 & Hthis & Hok). injection Hthis as <- <-.
  apply bind_ok_inv in Hok as ([] & w5 & Hb & Hok).
  apply broadcast_ok_inv in Hb.
  apply bind_ok_inv in Hok as ([] & w6 & Hres & Hok).
  injection Hres as <-. injection Hok as <- <-.
  subst w5 w2. simpl. rewrite Hq. repeat split.
Qed.

(** X4: a first [initialize] that completes on a datalayer without
    recorded broadcasts has admitted exactly the candidates of
    [options.plugins] whose rule evaluates to a truthy value, in the order
    given, each built with [globalConfig[id] || config]; it has then
    delivered ['initialize'] with the global data once to every registered
    plugin that has a [handleEvent], the new ones included, in
    registration order, and recorded that event as the only entry of the
    history.  No other handler call is made and nothing is written to the
    console. *)
Theorem initialize_admits_accepted_candidates env options w v w'
  (Hinit : initialized (dal w) = false)
  (Hq : broadcastQueue (dal w) = [])
  (Hok : initialize env options w = (Ok v, w')) :
  let d1 := dal (prepared env options w) in
  let ps := plugins (dal w)
            ++ admissions env d1 (candidates env options) (allocated w) in
  plugins (dal w') = ps
  /\ allocated w'
     = allocated w + length (admissions env d1 (candidates env options) (allocated w))
  /\ handled w'
     = handled w ++ deliveries env ps (VStr "initialize")
                      (supplied_data env options) (clock_reads w)
  /\ broadcastQueue (dal w') = [(VStr "initialize", supplied_data env options)]
  /\ globalData (dal w') = supplied_data env options
  /\ globalConfig (dal w') = supplied_config env options
  /\ console w' = console w.
Proof. exact (initialize_success_world env options w v w' Hinit Hq Hok). Qed.

Lemma initialize_admits_accepted_candidates_witness :
  let options :=
    VObj [("data", Fixture.globalDataMock);
          ("config", VObj [("test/mockPlugin", VObj [("k", VNum 1)])]);
          ("plugins",
           VArr [VObj [("type", Fixture.MockPlugin); ("rule", VFun 2);
                       ("config", VObj [("own", VBool true)])];
                 VObj [("type", Fixture.BarePlugin); ("rule", VFun 1)];
                 VObj [("type", Fixture.BarePlugin); ("rule", VBool true);
                       ("config", VObj [("own", VNum 2)])]])] in
  let w' := snd (initialize Scenario.env options Fixture.w0) in
  plugins (dal w')
  = [mkPlugin 0 (VObj [("k", VNum 1)]) 0; mkPlugin 1 (VObj [("own", VNum 2)]) 1]
  /\ allocated w' = 2
  /\ handled w'
     = [mkDelivery (mkPlugin 0 (VObj [("k", VNum 1)]) 0) (VStr "initialize")
          Fixture.globalDataMock 1000]
  /\ broadcastQueue (dal w') = [(VStr "initialize", Fixture.globalDataMock)]
  /\ globalData (dal w') = Fixture.globalDataMock
  /\ globalConfig (dal w') = VObj [("test/mockPlugin", VObj [("k", VNum 1)])]
  /\ console w' = [].
Proof.
  intros options w'.
  assert (Hok : initialize Scenario.env options Fixture.w0 = (Ok VUndef, w'))
    by (vm_compute; reflexivity).
  pose proof (initialize_admits_accepted_candidates Scenario.env options
                Fixture.w0 VUndef w' eq_refl eq_refl Hok) as W.
  vm_compute in W |- *. exact W.
Defined.

(** *** The shape of the datalayer after a call *)

Section Shape.

Variable env : Env.

Lemma plugins_extended_refl d : plugins_extended d d.
Proof. exists []. rewrite app_nil_r. now destruct d. Qed.

Lemma plugins_extended_push d0 p d :
  plugins_extended d0 d -> plugins_extended d0 (push_plugin p d).
Proof.
  intros [ps ->]. exists (ps ++ [p]). unfold push_plugin; simpl.
  now rewrite app_assoc.
Qed.

Lemma keeps_plugin_loop (I : Datalayer -> Prop) pluginList len :
  (forall p d, I d -> I (push_plugin p d)) ->
  keeps I (if truthy len then
             match pluginList with
             | VArr items =>
                 forEach (fun pluginOptions =>
                   rule <- prop env pluginOptions "rule" ;;
                   accepted <- validateRule env rule ;;
                   if truthy accepted then
                     type <- prop env pluginOptions "type" ;;
                     config <- prop env pluginOptions "config" ;;
                     addPlugin env type config
                   else ret tt) items
             | _ => throw TypeError
             end
           else ret tt).
Proof.
  intros Hpush.
  destruct (truthy len); [| intros w H; exact H].
  destruct pluginList; try (intros w H; exact H).
  apply keeps_forEach. intros o.
  apply keeps_bind; [apply keeps_prop | intros rule].
  apply keeps_bind; [apply keeps_validateRule | intros accepted].
  destruct (truthy accepted); [| intros w H; exact H].
  apply keeps_bind; [apply keeps_prop | intros type].
  apply keeps_bind; [apply keeps_prop | intros config].
  now apply keeps_addPlugin.
Qed.

(** However a broadcast ends, it has appended its event to the history or
    has left the datalayer as it was. *)
Lemma broadcast_shape name data w :
  let r := broadcast env name data w in
  match fst r with
  | Ok _ => dal (snd r) = push_event (name, data) (dal w)
  | Throw _ => dal (snd r) = dal w
  end.
Proof.
  unfold broadcast, bind at 1, this. unfold bind.
  pose proof (forEach_send_frame env (plugins (dal w)) name data w) as Hf.
  destruct (forEach _ (plugins (dal w)) w) as [[[] | e] w1]; simpl in *;
    destruct Hf as (Hd & _); now rewrite Hd.
Qed.

(** What [initialize] can have done to the datalayer object: nothing; or
    stored config and data and stopped at the validation; or, the data
    being valid, appended plugins and then stopped in the loop, or set
    the ready flag and stopped in the broadcast, or also recorded the
    ['initialize'] event and resolved the promise. *)
Lemma initialize_shape options w :
  let d' := dal (snd (initialize env options w)) in
  let d1 := dal (prepared env options w) in
  d' = dal w
  \/ (initialized (dal w) = false /\ d' = d1)
  \/ (initialized (dal w) = false /\ data_valid env d1
      /\ exists d2, plugins_extended d1 d2
           /\ (d' = d2
               \/ d' = set_initialized true d2
               \/ d' = resolve (push_event (VStr "initialize", globalData d1)
                                  (set_initialized true d2)))).
Proof.
  cbv zeta.
  destruct (initialized (dal w)) eqn:Hinit.
  { left. now rewrite initialize_again. }
  assert (Hobj : {is_object options} + {options = VUndef \/ options = VNull}).
  { destruct options; try (left; split; discriminate); right; auto. }
  destruct Hobj as [Hobj | Hno].
  2: { left. unfold initialize, bind at 1, this. rewrite Hinit.
       destruct Hno as [-> | ->]; reflexivity. }
  rewrite (initialize_validation env options w Hinit Hobj). cbv zeta.
  destruct (page_ok env _) eqn:Hp; [| right; left; auto].
  destruct (site_ok env _) eqn:Hs; [| right; left; auto].
  destruct (user_ok env _) eqn:Hu; [| right; left; auto].
  right; right. split; [reflexivity |]. split; [now repeat split |].
  simpl.
  remember (after_validation env (or_else (get env options "plugins") (VArr []))
              (prepared env options w)) as r eqn:Hr.
  unfold after_validation in Hr. unfold bind at 1 in Hr.
  rewrite prop_object in Hr by (apply or_else_object; split; discriminate).
  unfold bind at 1 in Hr.
  match type of Hr with
  | context [match ?loop (prepared env options w) with _ => _ end] =>
      pose proof (keeps_plugin_loop (plugins_extended (dal (prepared env options w)))
                    (or_else (get env options "plugins") (VArr []))
                    (get env (or_else (get env options "plugins") (VArr [])) "length")
                    (plugins_extended_push _)
                    (prepared env options w)
                    (plugins_extended_refl _)) as Hloop;
      destruct (loop (prepared env options w)) as [[[] | e] w2]
  end; simpl in Hloop.
  2: { subst r. exists (dal w2). split; [exact Hloop | now left]. }
  exists (dal w2). split; [exact Hloop |].
  unfold bind at 1, update at 1 in Hr. unfold bind at 1, this in Hr.
  unfold bind at 1 in Hr.
  pose proof (broadcast_shape (VStr "initialize")
                (globalData (dal (set_dal (set_initialized true) w2)))
                (set_dal (set_initialized true) w2)) as Hb.
  cbv zeta in Hb.
  destruct (broadcast env _ _ (set_dal (set_initialized true) w2))
    as [[[] | e] w5]; simpl in Hb; subst r.
  - right; right. simpl. rewrite Hb.
    destruct Hloop as [ps ->]. reflexivity.
  - right; left. simpl. exact Hb.
Qed.

End Shape.

Section Lifecycle.

Variable env : Env.

Lemma run_call_data_valid c w :
  (initialized (dal w) = true -> data_valid env (dal w)) ->
  initialized (dal (run_call env c w)) = true ->
  data_valid env (dal (run_call env c w)).
Proof.
  intros H. destruct c as [name data | pluginClass config | options]; simpl.
  - apply (keeps_broadcast env
             (fun d => initialized d = true -> data_valid env d)); auto.
  - apply (keeps_addPlugin env
             (fun d => initialized d = true -> data_valid env d)); auto.
  - destruct (initialize_shape env options w)
      as [-> | [(Hi & ->) | (Hi & Hv & d2 & [ps ->] & [-> | [-> | ->]])]];
      auto; simpl; intros; try congruence; exact Hv.
Qed.

Lemma run_call_resolved_ready c w :
  (readyPromise (dal w) = Resolved ->
   initialized (dal w) = true /\ broadcastQueue (dal w) <> []) ->
  readyPromise (dal (run_call env c w)) = Resolved ->
  initialized (dal (run_call env c w)) = true
  /\ broadcastQueue (dal (run_call env c w)) <> [].
Proof.
  intros H. destruct c as [name data | pluginClass config | options]; simpl.
  - apply (keeps_broadcast env
             (fun d => readyPromise d = Resolved ->
                       initialized d = true /\ broadcastQueue d <> [])); auto.
    simpl. intros e d Hd Hr. split; [now apply Hd |].
    intros Habs. now apply app_eq_nil in Habs as [_ Habs].
  - apply (keeps_addPlugin env
             (fun d => readyPromise d = Resolved ->
                       initialized d = true /\ broadcastQueue d <> [])); auto.
  - destruct (initialize_shape env options w)
      as [-> | [(Hi & ->) | (Hi & Hv & d2 & [ps ->] & [-> | [-> | ->]])]];
      auto; simpl; intros Hr;
      try (apply H in Hr; destruct Hr as [Hr _]; congruence).
    split; [reflexivity |].
    intros Habs. now apply app_eq_nil in Habs as [_ Habs].
Qed.

Lemma reachable_resolved_ready w :
  reachable env w ->
  readyPromise (dal w) = Resolved ->
  initialized (dal w) = true /\ broadcastQueue (dal w) <> [].
Proof.
  induction 1 as [b | w c Hw IH].
  - discriminate.
  - now apply run_call_resolved_ready.
Qed.

Lemma run_call_resolved_event c w :
  (readyPromise (dal w) = Resolved ->
   exists data, In (VStr "initialize", data) (broadcastQueue (dal w))) ->
  readyPromise (dal (run_call env c w)) = Resolved ->
  exists data, In (VStr "initialize", data) (broadcastQueue (dal (run_call env c w))).
Proof.
  intros H. destruct c as [name data | pluginClass config | options]; simpl.
  - apply (keeps_broadcast env
             (fun d => readyPromise d = Resolved ->
                       exists data, In (VStr "initialize", data) (broadcastQueue d)));
      auto.
    simpl. intros e d Hd Hr. destruct (Hd Hr) as [x Hx].
    exists x. apply in_or_app. now left.
  - apply (keeps_addPlugin env
             (fun d => readyPromise d = Resolved ->
                       exists data, In (VStr "initialize", data) (broadcastQueue d)));
      auto.
  - destruct (initialize_shape env options w)
      as [-> | [(Hi & ->) | (Hi & Hv & d2 & [ps ->] & [-> | [-> | ->]])]];
      auto; simpl; intros Hr.
    exists (supplied_data env options). apply in_or_app. right. now left.
Qed.

Lemma reachable_resolved_event w :
  reachable env w ->
  readyPromise (dal w) = Resolved ->
  exists data, In (VStr "initialize", data) (broadcastQueue (dal w)).
Proof.
  induction 1 as [b | w c Hw IH].
  - discriminate.
  - now apply run_call_resolved_event.
Qed.

Lemma run_call_stays_pending c w :
  initialized (dal w) = true -> readyPromise (dal w) = Pending ->
  initialized (dal (run_call env c w)) = true
  /\ readyPromise (dal (run_call env c w)) = Pending.
Proof.
  intros Hi Hp. destruct c as [name data | pluginClass config | options]; simpl.
  - apply (keeps_broadcast env
             (fun d => initialized d = true /\ readyPromise d = Pending)); auto.
  - apply (keeps_addPlugin env
             (fun d => initialized d = true /\ readyPromise d = Pending)); auto.
  - rewrite initialize_again by exact Hi. auto.
Qed.

Lemma grows_trans d1 d2 d3 : grows d1 d2 -> grows d2 d3 -> grows d1 d3.
Proof.
  intros (Hi & [ps Hp] & [es He] & Ht) (Hi' & [ps' Hp'] & [es' He'] & Ht').
  repeat split.
  - auto.
  - exists (ps ++ ps'). now rewrite Hp', Hp, app_assoc.
  - exists (es ++ es'). now rewrite He', He, app_assoc.
  - congruence.
Qed.

End Lifecycle.

(** X5: on every datalayer the class can get into, the ready flag is set
    only over valid data: once [initialized] is true the global data
    passes the page, site and user checks of [initialize], and that is the
    data [getData] returns. *)
Theorem ready_data_is_valid env w
  (Hreach : reachable env w) (Hinit : initialized (dal w) = true) :
  data_valid env (dal w)
  /\ getData w = (Ok (globalData (dal w)), w).
Proof.
  split.
  - revert Hinit. induction Hreach as [b | w c Hw IH].
    + discriminate.
    + now apply run_call_data_valid.
  - unfold getData, bind, this. now rewrite Hinit.
Qed.

Lemma ready_data_is_valid_witness :
  let w := run_call Fixture.env (CallInitialize Fixture.options_three)
             (new_world Fixture.browser) in
  data_valid Fixture.env (dal w)
  /\ getData w = (Ok (globalData (dal w)), w).
Proof.
  intros w.
  apply (ready_data_is_valid Fixture.env w).
  - exact (reach_call Fixture.env (new_world Fixture.browser)
             (CallInitialize Fixture.options_three)
             (reach_new Fixture.env Fixture.browser)).
  - vm_compute; reflexivity.
Defined.

(** X6: the readiness promise is resolved only on a datalayer that is
    initialised and has the ['initialize'] broadcast behind it: in every
    state the class can get into, a resolved promise comes with the ready
    flag set and a history that is not empty and holds an ['initialize']
    event. *)
Theorem resolved_promise_means_ready env w
  (Hreach : reachable env w) (Hres : readyPromise (dal w) = Resolved) :
  initialized (dal w) = true
  /\ broadcastQueue (dal w) <> []
  /\ exists data, In (VStr "initialize", data) (broadcastQueue (dal w)).
Proof.
  destruct (reachable_resolved_ready env w Hreach Hres) as [Hi Hq].
  split; [exact Hi |]. split; [exact Hq |].
  exact (reachable_resolved_event env w Hreach Hres).
Qed.

Lemma resolved_promise_means_ready_witness :
  let w := run_call Fixture.env (CallInitialize Fixture.options_three)
             (new_world Fixture.browser) in
  initialized (dal w) = true
  /\ broadcastQueue (dal w) <> []
  /\ exists data, In (VStr "initialize", data) (broadcastQueue (dal w)).
Proof.
  intros w.
  apply (resolved_promise_means_ready Fixture.env w).
  - exact (reach_call Fixture.env (new_world Fixture.browser)
             (CallInitialize Fixture.options_three)
             (reach_new Fixture.env Fixture.browser)).
  - vm_compute; reflexivity.
Defined.

(** X7: a datalayer whose ready flag is set while its promise is still
    pending (a handler threw on the ['initialize'] event) stays that way:
    whatever is called afterwards, [initialize] included, the promise is
    never resolved. *)
Theorem pending_promise_is_never_resolved env cs w
  (Hinit : initialized (dal w) = true)
  (Hpending : readyPromise (dal w) = Pending) :
  initialized (dal (run_calls env cs w)) = true
  /\ readyPromise (dal (run_calls env cs w)) = Pending.
Proof.
  revert w Hinit Hpending. induction cs as [| c cs IH]; intros w Hi Hp; simpl.
  - auto.
  - destruct (run_call_stays_pending env c w Hi Hp) as [Hi' Hp'].
    now apply IH.
Qed.

Lemma pending_promise_is_never_resolved_witness :
  let options :=
    VObj [("data", Fixture.globalDataMock);
          ("plugins", VArr [VObj [("type", Fixture.FailingPlugin);
                                  ("rule", VBool true)]])] in
  let w := snd (initialize Fixture.env options Fixture.w0) in
  let cs := [CallInitialize options;
             CallBroadcast Fixture.event_x Fixture.payload_a1;
             CallInitialize (VObj [("data", Fixture.globalDataMock)])] in
  fst (initialize Fixture.env options Fixture.w0) = Throw (UserError 1)
  /\ initialized (dal (run_calls Fixture.env cs w)) = true
  /\ readyPromise (dal (run_calls Fixture.env cs w)) = Pending.
Proof.
  intros options w cs. split; [vm_compute; reflexivity |].
  apply (pending_promise_is_never_resolved Fixture.env cs w);
    vm_compute; reflexivity.
Defined.

(** X8: no sequence of calls takes anything back: the plugin list and the
    history of any earlier state are prefixes of those of any later state,
    a ready flag once set stays set, and the test-mode flag read at
    construction never changes. *)
Theorem calls_only_grow env cs w : grows (dal w) (dal (run_calls env cs w)).
Proof.
  revert w. induction cs as [| c cs IH]; intros w; simpl.
  - repeat split; auto; exists []; now rewrite app_nil_r.
  - eapply grows_trans; [apply run_call_grows | apply IH].
Qed.

(** X9: once the readiness promise is resolved, [addPlugin] of a class
    always throws a [TypeError]: the history holds at least the
    ['initialize'] event, so the catch-up loop runs and fails on its first
    read.  The instance has been constructed and appended to the plugin
    list by then, and no handler has been called. *)
Theorem addPlugin_once_ready_throws env c config w
  (Hreach : reachable env w)
  (Hres : readyPromise (dal w) = Resolved)
  (Hnew : construct_fails env c (globalData (dal w))
            (effective_config env c config (dal w)) = None) :
  addPlugin env (VClass c) config w =
  (Throw TypeError,
   mkWorld (push_plugin (admitted_plugin env c config w) (dal w)) (S (allocated w))
     (clock_reads w) (console w) (handled w)).
Proof.
  destruct (reachable_wellformed env w Hreach) as (Hh & Hcfg & _).
  destruct (reachable_resolved_ready env w Hreach Hres) as [_ Hq].
  now apply addPlugin_replay_throws.
Qed.

Lemma addPlugin_once_ready_throws_witness :
  let w := run_call Fixture.env (CallInitialize Fixture.options_three)
             (new_world Fixture.browser) in
  addPlugin Fixture.env Fixture.MockPlugin VUndef w =
  (Throw TypeError,
   mkWorld (push_plugin (Fixture.mock 2) (dal w)) 3 1 []
     [mkDelivery (Fixture.mock 0) (VStr "initialize") Fixture.globalDataMock 1000]).
Proof.
  intros w.
  pose proof (addPlugin_once_ready_throws Fixture.env 0 VUndef w
                (reach_call Fixture.env (new_world Fixture.browser)
                   (CallInitialize Fixture.options_three)
                   (reach_new Fixture.env Fixture.browser))) as W.
  assert (Hres : readyPromise (dal w) = Resolved)
    by (vm_compute; reflexivity).
  assert (Hnew : construct_fails Fixture.env 0 (globalData (dal w))
                   (effective_config Fixture.env 0 VUndef (dal w))
                 = None) by reflexivity.
  specialize (W Hres Hnew). vm_compute in W |- *. exact W.
Defined.

(** *** Broadcasts in a row *)

Section Broadcasts.

Variable env : Env.

Lemma deliveries_calls ps name data k :
  map call_of (deliveries env ps name data k)
  = map (fun p => (p, (name, data))) (filter (has_handleEvent env) ps).
Proof.
  revert k; induction ps as [| p ps IH]; intros k; simpl; [reflexivity |].
  destruct (has_handleEvent env p); simpl; now rewrite IH.
Qed.

Lemma broadcasts_run events : forall w,
  (forall q n d ts, In q (plugins (dal w)) ->
                    handleEvent_fails env q n d ts = None) ->
  exists ds,
    handled (run_calls env (broadcasts events) w) = handled w ++ ds
    /\ map call_of ds
       = flat_map (fun e => map (fun p => (p, e))
                              (filter (has_handleEvent env) (plugins (dal w))))
           events
    /\ broadcastQueue (dal (run_calls env (broadcasts events) w))
       = broadcastQueue (dal w) ++ events
    /\ plugins (dal (run_calls env (broadcasts events) w)) = plugins (dal w).
Proof.
  induction events as [| [name data] events IH]; intros w Hok; simpl.
  - exists []. now rewrite !app_nil_r.
  - rewrite (broadcast_ok env name data w) by (intros; apply Hok; assumption).
    simpl.
    match goal with
    | |- context [run_calls env _ ?w1] =>
        destruct (IH w1) as (ds & Hh & Hc & Hq & Hp); [exact Hok |]
    end.
    simpl in *.
    exists (deliveries env (plugins (dal w)) name data (clock_reads w) ++ ds).
    repeat split.
    + now rewrite Hh, app_assoc.
    + now rewrite map_app, deliveries_calls, Hc.
    + rewrite Hq, <- app_assoc. reflexivity.
    + exact Hp.
Qed.

End Broadcasts.

(** X10: broadcasts made one after the other on a datalayer whose
    handlers do not throw reach the plugins event by event, in the order
    of the calls: for each event one handler call per registered plugin
    that has a [handleEvent], in registration order, with that event's name
    and payload.  The history grows by the same events in the same order
    and the plugin list stays as it is. *)
Theorem broadcasts_reach_plugins_in_order env events w
  (Hok : forall q n d ts, In q (plugins (dal w)) ->
                          handleEvent_fails env q n d ts = None) :
  let w' := run_calls env (broadcasts events) w in
  exists ds,
    handled w' = handled w ++ ds
    /\ map call_of ds
       = flat_map (fun e => map (fun p => (p, e))
                              (filter (has_handleEvent env) (plugins (dal w))))
           events
    /\ broadcastQueue (dal w') = broadcastQueue (dal w) ++ events
    /\ plugins (dal w') = plugins (dal w).
Proof. exact (broadcasts_run env events w Hok). Qed.

Lemma broadcasts_reach_plugins_in_order_witness :
  let w := Fixture.admitted [Fixture.MockPlugin; Fixture.BarePlugin; Fixture.MockPlugin] in
  let events := [(VStr "view", VNum 1); (VStr "click", VNum 2)] in
  let w' := run_calls Fixture.env (broadcasts events) w in
  exists ds,
    handled w' = handled w ++ ds
    /\ map call_of ds
       = [(Fixture.mock 0, (VStr "view", VNum 1));
          (Fixture.mock 2, (VStr "view", VNum 1));
          (Fixture.mock 0, (VStr "click", VNum 2));
          (Fixture.mock 2, (VStr "click", VNum 2))]
    /\ broadcastQueue (dal w') = broadcastQueue (dal w) ++ events
    /\ plugins (dal w') = plugins (dal w).
Proof.
  intros w events.
  apply (broadcasts_reach_plugins_in_order Fixture.env events w).
  intros q n d ts [<- | [<- | [<- | []]]]; reflexivity.
Defined.

(** X11: [initialize] is not undone when it fails.  If a first call stops
    without setting the ready flag, the plugins it had admitted by then
    stay registered; a later call that completes admits its own accepted
    candidates after them, so a candidate accepted in both calls is
    registered twice. *)
Theorem failed_initialize_keeps_its_plugins env first retry w v w2
  (Hinit : initialized (dal w) = false)
  (Hq : broadcastQueue (dal w) = [])
  (Hfail : initialized (dal (snd (initialize env first w))) = false)
  (Hok : initialize env retry (snd (initialize env first w)) = (Ok v, w2)) :
  let w1 := snd (initialize env first w) in
  exists ps1,
    plugins (dal w1) = plugins (dal w) ++ ps1
    /\ plugins (dal w2)
       = plugins (dal w) ++ ps1
         ++ admissions env (dal (prepared env retry w1)) (candidates env retry)
              (allocated w1).
Proof.
  cbv zeta.
  assert (Hshape : exists ps1,
             plugins (dal (snd (initialize env first w))) = plugins (dal w) ++ ps1
             /\ broadcastQueue (dal (snd (initialize env first w))) = []).
  { destruct (initialize_shape env first w)
      as [Hd | [(_ & Hd) | (_ & _ & d2 & [ps Hps] & [Hd | [Hd | Hd]])]];
      rewrite Hd in Hfail |- *.
    - exists []. now rewrite app_nil_r.
    - exists []. simpl. now rewrite app_nil_r.
    - subst d2. exists ps. simpl. auto.
    - discriminate Hfail.
    - discriminate Hfail. }
  destruct Hshape as (ps1 & Hps1 & Hq1).
  exists ps1. split; [exact Hps1 |].
  destruct (initialize_success_world env retry _ v w2 Hfail Hq1 Hok) as (Hp & _).
  rewrite Hp, Hps1. now rewrite <- app_assoc.
Qed.

Lemma failed_initialize_keeps_its_plugins_witness :
  let first :=
    VObj [("data", Fixture.globalDataMock);
          ("plugins", VArr [VObj [("type", Fixture.MockPlugin); ("rule", VBool true)];
                            VObj [("type", Fixture.MockPlugin); ("rule", VFun 5)]])] in
  let retry :=
    VObj [("data", Fixture.globalDataMock);
          ("plugins", VArr [VObj [("type", Fixture.MockPlugin); ("rule", VBool true)]])] in
  let w1 := snd (initialize Fixture.env first Fixture.w0) in
  let w2 := snd (initialize Fixture.env retry w1) in
  fst (initialize Fixture.env first Fixture.w0) = Throw (UserError 0)
  /\ plugins (dal w1) = [Fixture.mock 0]
  /\ plugins (dal w2) = [Fixture.mock 0; Fixture.mock 1].
Proof.
  intros first retry w1 w2.
  assert (Hfail : initialized (dal (snd (initialize Fixture.env first Fixture.w0)))
                  = false) by (vm_compute; reflexivity).
  assert (Hok : initialize Fixture.env retry
                  (snd (initialize Fixture.env first Fixture.w0))
                = (Ok VUndef, w2)) by (vm_compute; reflexivity).
  destruct (failed_initialize_keeps_its_plugins Fixture.env first retry
              Fixture.w0 VUndef w2 eq_refl eq_refl Hfail Hok) as (ps1 & H1 & H2).
  split; [vm_compute; reflexivity |].
  split; vm_compute; reflexivity.
Defined.

(** *** Event markup *)

(** X12: the callback [scanForEventMarkup] hands to the collaborator
    broadcasts an element's event at most once.  Called without an error
    for an element, it marks the element before it broadcasts; a further
    call for that element, whatever object it brings, changes nothing and
    reaches no plugin, also when the first broadcast threw.  Called with an
    error it only logs the error. *)
Theorem event_markup_is_broadcast_once env element pg :
  (forall err1 obj1 err2 obj2,
     truthy err1 = false -> truthy err2 = false ->
     let pg1 := snd (eventMarkupCallback env err1 element obj1 pg) in
     eventMarkupCallback env err2 element obj2 pg1 = (Ok tt, pg1))
  /\ (forall err obj,
        truthy err = true ->
        eventMarkupCallback env err element obj pg
        = (Ok tt,
           mkPage (world pg) (handled_elements pg) (console_errors pg ++ [err])))
  /\ (forall err obj,
        truthy err = false ->
        existsb (Nat.eqb element) (handled_elements pg) = false ->
        is_object obj ->
        let r := broadcast env (get env obj "name") (get env obj "data") (world pg) in
        eventMarkupCallback env err element obj pg
        = (fst r,
           mkPage (snd r) (handled_elements pg ++ [element]) (console_errors pg))).
Proof.
  split; [| split].
  - intros err1 obj1 err2 obj2 H1 H2. cbv zeta.
    assert (Hmark : existsb (Nat.eqb element)
                      (handled_elements
                         (snd (eventMarkupCallback env err1 element obj1 pg)))
                    = true).
    { unfold eventMarkupCallback. rewrite H1.
      destruct (existsb (Nat.eqb element) (handled_elements pg)) eqn:Hm; simpl.
      - exact Hm.
      - rewrite existsb_app. simpl. rewrite Nat.eqb_refl.
        now rewrite orb_true_r. }
    revert Hmark.
    generalize (snd (eventMarkupCallback env err1 element obj1 pg)).
    intros pg1 Hmark. unfold eventMarkupCallback. now rewrite H2, Hmark.
  - intros err obj H. unfold eventMarkupCallback. now rewrite H.
  - intros err obj H Hm Hobj. cbv zeta. unfold eventMarkupCallback.
    rewrite H, Hm. cbv zeta.
    assert (Hr : (name <- prop env obj "name" ;;
                  data <- prop env obj "data" ;;
                  broadcast env name data) (world pg)
                 = broadcast env (get env obj "name") (get env obj "data")
                     (world pg)).
    { unfold bind at 1. rewrite prop_object by assumption.
      unfold bind at 1. rewrite prop_object by assumption. reflexivity. }
    now rewrite Hr.
Qed.

Lemma event_markup_is_broadcast_once_witness :
  let w := Fixture.admitted [Fixture.FailingPlugin] in
  let pg := mkPage w [] [] in
  let obj := VObj [("name", VStr "view"); ("data", VNum 1)] in
  let pg1 := snd (eventMarkupCallback Fixture.env VNull 7 obj pg) in
  eventMarkupCallback Fixture.env VNull 7 obj pg1 = (Ok tt, pg1)
  /\ eventMarkupCallback Fixture.env (VStr "bad JSON") 7 obj pg
     = (Ok tt, mkPage w [] [VStr "bad JSON"])
  /\ eventMarkupCallback Fixture.env VNull 7 obj pg
     = (Throw (UserError 1),
        mkPage (snd (broadcast Fixture.env (VStr "view") (VNum 1) w)) [7] []).
Proof.
  intros w pg obj pg1.
  destruct (event_markup_is_broadcast_once Fixture.env 7 pg) as (H1 & H2 & H3).
  split; [| split].
  - exact (H1 VNull obj VNull obj eq_refl eq_refl).
  - exact (H2 (VStr "bad JSON") obj eq_refl).
  - apply (H3 VNull obj); [reflexivity | reflexivity | split; discriminate].
Defined.
